(** * Bozloader: the upload review workflow

    A shallow embedding of the two Flask applications of the repository,
    [app/main.py] (module [Main]) and [app/routes.py] (module [Routes]):
    the [uploads] table, the pending and published directories and the
    calls to the notification and Plex collaborators.

    Conventions of the embedding.
    - The [uploads] table is the list of its rows in insertion order.
    - The file system is a finite map from path strings to file contents;
      directories are not represented, and two different strings are two
      different files.
    - Everything a handler reads from outside (clock, uuid generator,
      I/O failures, failures of the collaborators) is given by a record
      [env]; one request consumes one [env].
    - Calls to the collaborators are appended to an outbox, in call order.
    - Strings are byte strings; [lower] folds the ASCII letters only. *)

From Stdlib Require Import Ascii String Sorted Permutation.
From stdpp Require Import gmap strings list fin_maps.

(** ** Data shared by the two applications *)

(** The [status] column; only these three literals are ever written
    ('pending' is the column default). *)
Inductive review_status := Pending | Approved | Denied.

#[global] Instance review_status_eq_dec : EqDecision review_status.
Proof. solve_decision. Defined.

(** Calls that leave the process. Message bodies are not represented. *)
Inductive effect :=
| UploadNotification (uploader filename media_type upload_id : string)
| ApprovalNotification (uploader filename media_type : string)
| DenialNotification (uploader filename notes : string)
| PlexScan (library : option string)
| SendEmail (recipient subject : string)
| SendDiscord (kind filename : string)
| LogError (msg : string).

#[global] Instance effect_eq_dec : EqDecision effect.
Proof. solve_decision. Defined.

Abbreviation filesystem := (gmap string string).

(** *** Strings *)

Definition ascii_lower (c : ascii) : ascii :=
  let n := nat_of_ascii c in
  if (65 <=? n)%nat && (n <=? 90)%nat then ascii_of_nat (n + 32) else c.

Fixpoint lower (s : string) : string :=
  match s with
  | EmptyString => EmptyString
  | String c s' => String (ascii_lower c) (lower s')
  end.

(** [rsplit_dot s] is [s.rsplit('.', 1)[1]] when ['.' in s], and [None]
    otherwise. *)
Fixpoint rsplit_dot (s : string) : option string :=
  match s with
  | EmptyString => None
  | String c s' =>
      match rsplit_dot s' with
      | Some ext => Some ext
      | None => if Ascii.eqb c "." then Some s' else None
      end
  end.

Definition startswith (p s : string) : bool := String.prefix p s.

Fixpoint endswith_slash (s : string) : bool :=
  match s with
  | EmptyString => false
  | String c EmptyString => Ascii.eqb c "/"
  | String _ s' => endswith_slash s'
  end.

(** [os.path.join(a, p)] for two components (posixpath); [Path(a) / p]
    names the same file. *)
Definition os_path_join (a p : string) : string :=
  if startswith "/" p then p
  else if bool_decide (a = "") || endswith_slash a then a +:+ p
  else a +:+ "/" +:+ p.

(** *** File operations

    Each returns [inl msg] when the Python call raises, [msg] standing for
    [str(e)], and the new file system otherwise. [fault] is the failure the
    environment injects (permission denied, read-only or full disk). A call
    that raises leaves the file system as it was. [shutil.move] onto an
    existing file replaces it. *)

Definition no_such_file (path : string) : string :=
  "[Errno 2] No such file or directory: '" +:+ path +:+ "'".

Definition file_save (fault : option string) (path bytes : string)
    (fs : filesystem) : string + filesystem :=
  match fault with
  | Some msg => inl msg
  | None => inr (<[path := bytes]> fs)
  end.

Definition shutil_move (fault : option string) (src dst : string)
    (fs : filesystem) : string + filesystem :=
  match fs !! src with
  | None => inl (no_such_file src)
  | Some bytes =>
      match fault with
      | Some msg => inl msg
      | None => inr (<[dst := bytes]> (delete src fs))
      end
  end.

Definition path_exists (path : string) (fs : filesystem) : bool :=
  bool_decide (is_Some (fs !! path)).

Definition os_remove (fault : option string) (path : string)
    (fs : filesystem) : string + filesystem :=
  match fs !! path with
  | None => inl (no_such_file path)
  | Some _ =>
      match fault with
      | Some msg => inl msg
      | None => inr (delete path fs)
      end
  end.

(** *** What one request reads from its environment *)

Record env := {
  now : string;              (* datetime.now().isoformat() / CURRENT_TIMESTAMP *)
  strftime_now : string;     (* datetime.now().strftime('%Y%m%d_%H%M%S') *)
  uuid4 : string;            (* str(uuid.uuid4()) *)
  mkdir_error : option string;
  save_error : option string;
  move_error : option string;
  remove_error : option string;
  scan_error : option string;
  notify_error : option string
}.

(** *** ORDER BY ... DESC and LIMIT

    The rows are sorted by a stable insertion sort on the key, greatest key
    first; [LIMIT n] keeps the first [n] rows. *)

Section OrderBy.
Context {A K : Type} (key : A → K) (leb : K → K → bool).

Fixpoint insert_desc (x : A) (l : list A) : list A :=
    match l with
    | [] => [x]
    | y :: l' =>
        if leb (key y) (key x) then x :: y :: l' else y :: insert_desc x l'
    end.

Fixpoint order_by_desc (l : list A) : list A :=
    match l with
    | [] => []
    | x :: l' => insert_desc x (order_by_desc l')
    end.

  (** [desc a b]: [a] may stand before [b] in a descending listing. *)
Definition desc (a b : A) : Prop := leb (key b) (key a) = true.
End OrderBy.

Definition limit {A} (n : nat) (l : list A) : list A := firstn n l.

(** NULL sorts below every value. *)
Definition null_leb (a b : option string) : bool :=
  match a, b with
  | None, _ => true
  | Some _, None => false
  | Some x, Some y => String.leb x y
  end.

(** ** app/main.py *)

Module Main.

(** The settings of [config.Config] that the handlers read. *)
Record config := {
  PENDING_MOVIES_PATH : string;
  PENDING_TV_PATH : string;
  PLEX_MOVIES_PATH : string;
  PLEX_TV_PATH : string;
  PLEX_MOVIES_LIBRARY : string;
  PLEX_TV_LIBRARY : string
}.

(** The defaults of config.py. *)
Definition default_config : config := {|
  PENDING_MOVIES_PATH := "/data/pending/movies";
  PENDING_TV_PATH := "/data/pending/tv";
  PLEX_MOVIES_PATH := "/data/plex/movies";
  PLEX_TV_PATH := "/data/plex/tv";
  PLEX_MOVIES_LIBRARY := "Movies";
  PLEX_TV_LIBRARY := "TV Shows"
|}.

(** A row of [uploads] (schema of [init_db]). *)
Record row := {
  id : string;
  filename : string;
  original_filename : string;
  media_type : string;
  uploader_email : string;
  upload_date : string;
  status : review_status;
  reviewed_date : option string;
  file_size : nat;
  notes : option string
}.

#[global] Instance row_eq_dec : EqDecision row.
Proof. solve_decision. Defined.

Record world := {
  uploads : list row;
  files : filesystem;
  outbox : list effect
}.

Definition set_uploads (db : list row) (w : world) : world :=
  {| uploads := db; files := files w; outbox := outbox w |}.

Definition set_files (fs : filesystem) (w : world) : world :=
  {| uploads := uploads w; files := fs; outbox := outbox w |}.

Definition emit (e : effect) (w : world) : world :=
  {| uploads := uploads w; files := files w; outbox := outbox w ++ [e] |}.

(** [try: call except Exception as e: app.logger.error(prefix + str(e))] *)
Definition try_call (fault : option string) (call : effect) (prefix : string)
    (w : world) : world :=
  match fault with
  | None => emit call w
  | Some msg => emit (LogError (prefix +:+ msg)) (emit call w)
  end.

(** What a view function returns. [JsonError code msg] is
    [jsonify({'error': msg}), code]; [JsonSuccess msg i] is
    [jsonify({'success': True, 'message': msg[, 'upload_id': i]})]. *)
Inductive response :=
| JsonError (code : nat) (msg : string)
| JsonSuccess (msg : string) (upload_id : option string)
| Redirect (endpoint : string).

#[global] Instance response_eq_dec : EqDecision response.
Proof. solve_decision. Defined.

(** An exception that no handler catches reaches [server_error]. *)
Definition server_error : response := JsonError 500 "Internal server error".

(** *** Queries *)

(** [SELECT * FROM uploads WHERE id = ?] then [fetchone()]. *)
Definition select_by_id (i : string) (db : list row) : option row :=
  List.find (λ r, bool_decide (id r = i)) db.

(** [UPDATE uploads SET ... WHERE id = ?] *)
Definition update_where_id (i : string) (f : row → row) (db : list row)
    : list row :=
  List.map (λ r, if bool_decide (id r = i) then f r else r) db.

(** [INSERT INTO uploads]: [id] is the primary key; a duplicate raises
    IntegrityError ([None]). *)
Definition insert_row (r : row) (db : list row) : option (list row) :=
  match select_by_id (id r) db with
  | Some _ => None
  | None => Some (db ++ [r])
  end.

Definition set_approved (t : string) (r : row) : row :=
  {| id := id r; filename := filename r;
     original_filename := original_filename r; media_type := media_type r;
     uploader_email := uploader_email r; upload_date := upload_date r;
     status := Approved; reviewed_date := Some t;
     file_size := file_size r; notes := notes r |}.

Definition set_denied (t n : string) (r : row) : row :=
  {| id := id r; filename := filename r;
     original_filename := original_filename r; media_type := media_type r;
     uploader_email := uploader_email r; upload_date := upload_date r;
     status := Denied; reviewed_date := Some t;
     file_size := file_size r; notes := Some n |}.

(** *** Helpers of main.py *)

Record headers := {
  cf_access_email : option string;   (* Cf-Access-Authenticated-User-Email *)
  x_user_email : option string       (* X-User-Email *)
}.

Definition get_user_email (h : headers) : string :=
  match cf_access_email h with
  | Some e => if bool_decide (e = "") then default "anonymous@example.com" (x_user_email h) else e
  | None => default "anonymous@example.com" (x_user_email h)
  end.

Definition allowed_extensions : list string :=
  ["mp4"; "mkv"; "avi"; "mov"; "wmv"; "flv"; "webm";
   "m4v"; "mpg"; "mpeg"; "ts"; "vob"; "iso"].

Definition allowed_file (filename : string) : bool :=
  match rsplit_dot filename with
  | None => false
  | Some ext => existsb (String.eqb (lower ext)) allowed_extensions
  end.

(** [@admin_required] *)
Definition admin_required (admin_logged_in : bool)
    (f : world → response * world) (w : world) : response * world :=
  if admin_logged_in then f w else (Redirect "admin_login", w).

Section Handlers.
Variable cfg : config.
(** [werkzeug.utils.secure_filename] *)
Variable secure_filename : string → string.

Record upload_request := {
  req_file : option (string * string);   (* request.files['file']: name, bytes *)
  req_media_type : option string;        (* request.form['media_type'] *)
  req_headers : headers
}.

Definition upload_file (e : env) (rq : upload_request) (w : world)
    : response * world :=
  match req_file rq with
  | None => (JsonError 400 "No file selected", w)
  | Some (file_filename, bytes) =>
    let mt := default "movie" (req_media_type rq) in
    let user_email := get_user_email (req_headers rq) in
    if bool_decide (file_filename = "") then
      (JsonError 400 "No file selected", w)
    else if negb (allowed_file file_filename) then
      (JsonError 400 "File type not allowed. Please upload video files only.", w)
    else
      let upload_id := uuid4 e in
      let original := file_filename in
      let secure_name := secure_filename original in
      let upload_path :=
        if bool_decide (mt = "tv") then PENDING_TV_PATH cfg
        else PENDING_MOVIES_PATH cfg in
      match mkdir_error e with
      | Some _ => (server_error, w)
      | None =>
        let final_filename := upload_id +:+ "_" +:+ secure_name in
        let file_path := os_path_join upload_path final_filename in
        match file_save (save_error e) file_path bytes (files w) with
        | inl msg => (JsonError 500 ("Failed to save file: " +:+ msg), w)
        | inr fs =>
          let w1 := set_files fs w in
          let r := {| id := upload_id; filename := final_filename;
                      original_filename := original; media_type := mt;
                      uploader_email := user_email; upload_date := now e;
                      status := Pending; reviewed_date := None;
                      file_size := String.length bytes; notes := None |} in
          match insert_row r (uploads w1) with
          | None => (server_error, w1)
          | Some db =>
            let w2 := set_uploads db w1 in
            let w3 := try_call (notify_error e)
                        (UploadNotification user_email original mt upload_id)
                        "Failed to send notification: " w2 in
            (JsonSuccess "Upload successful! You will receive an email when your upload is reviewed."
               (Some upload_id), w3)
          end
        end
      end
  end.

Definition approve_upload (e : env) (upload_id : string) (w : world)
    : response * world :=
  match select_by_id upload_id (uploads w) with
  | None => (JsonError 404 "Upload not found", w)
  | Some upload =>
    if negb (bool_decide (status upload = Pending)) then
      (JsonError 400 "Upload already processed", w)
    else
      let '(source_dir, dest_dir, library_name) :=
        if bool_decide (media_type upload = "tv")
        then (PENDING_TV_PATH cfg, PLEX_TV_PATH cfg, PLEX_TV_LIBRARY cfg)
        else (PENDING_MOVIES_PATH cfg, PLEX_MOVIES_PATH cfg, PLEX_MOVIES_LIBRARY cfg) in
      let source_path := os_path_join source_dir (filename upload) in
      match mkdir_error e with
      | Some _ => (server_error, w)
      | None =>
        let dest_path := os_path_join dest_dir (original_filename upload) in
        match shutil_move (move_error e) source_path dest_path (files w) with
        | inl msg => (JsonError 500 ("Failed to move file: " +:+ msg), w)
        | inr fs =>
          let w1 := set_files fs w in
          let w2 := set_uploads
                      (update_where_id upload_id (set_approved (now e)) (uploads w1)) w1 in
          let w3 := try_call (scan_error e) (PlexScan (Some library_name))
                      "Failed to trigger Plex scan: " w2 in
          let w4 := try_call (notify_error e)
                      (ApprovalNotification (uploader_email upload)
                         (original_filename upload) (media_type upload))
                      "Failed to send approval notification: " w3 in
          (JsonSuccess "Upload approved and added to Plex!" None, w4)
        end
      end
  end.

(** [form_notes] is [request.form.get('notes')]. *)
Definition deny_upload (e : env) (form_notes : option string)
    (upload_id : string) (w : world) : response * world :=
  let notes_ := default "" form_notes in
  match select_by_id upload_id (uploads w) with
  | None => (JsonError 404 "Upload not found", w)
  | Some upload =>
    if negb (bool_decide (status upload = Pending)) then
      (JsonError 400 "Upload already processed", w)
    else
      let source_dir :=
        if bool_decide (media_type upload = "tv") then PENDING_TV_PATH cfg
        else PENDING_MOVIES_PATH cfg in
      let source_path := os_path_join source_dir (filename upload) in
      let w1 :=
        if path_exists source_path (files w) then
          match os_remove (remove_error e) source_path (files w) with
          | inl msg => emit (LogError ("Failed to delete file: " +:+ msg)) w
          | inr fs => set_files fs w
          end
        else w in
      let w2 := set_uploads
                  (update_where_id upload_id (set_denied (now e) notes_) (uploads w1)) w1 in
      let w3 := try_call (notify_error e)
                  (DenialNotification (uploader_email upload)
                     (original_filename upload) notes_)
                  "Failed to send denial notification: " w2 in
      (JsonSuccess "Upload denied and file deleted." None, w3)
  end.

(** The two listings of [admin_panel]: pending, processed. *)
Definition admin_panel (w : world) : list row * list row :=
  let pending :=
    order_by_desc upload_date String.leb
      (filter (λ r, status r = Pending) (uploads w)) in
  let processed :=
    limit 50 (order_by_desc reviewed_date null_leb
      (filter (λ r, status r ≠ Pending) (uploads w))) in
  (pending, processed).

(** [my_uploads] *)
Definition my_uploads (h : headers) (w : world) : list row :=
  order_by_desc upload_date String.leb
    (filter (λ r, uploader_email r = get_user_email h) (uploads w)).

(** The requests that write to [uploads] or to the media directories; the
    other views of main.py only read [uploads] or work on the [admin]
    table. *)
Inductive request :=
| ReqUpload (rq : upload_request)
| ReqApprove (admin_logged_in : bool) (upload_id : string)
| ReqDeny (admin_logged_in : bool) (form_notes : option string) (upload_id : string).

Definition handle (e : env) (r : request) (w : world) : response * world :=
  match r with
  | ReqUpload rq => upload_file e rq w
  | ReqApprove a i => admin_required a (approve_upload e i) w
  | ReqDeny a n i => admin_required a (deny_upload e n i) w
  end.

(** Serving a sequence of requests, each with its own environment. *)
Fixpoint run (l : list (env * request)) (w : world) : world :=
  match l with
  | [] => w
  | (e, r) :: l' => run l' (snd (handle e r w))
  end.
End Handlers.

Definition empty_world : world :=
  {| uploads := []; files := ∅; outbox := [] |}.

(** The paths [approve_upload] and [deny_upload] compute for a row:
    [source_path] in the pending area, [dest_path] in the published area. *)
Definition source_path (cfg : config) (r : row) : string :=
  os_path_join
    (if bool_decide (media_type r = "tv") then PENDING_TV_PATH cfg
     else PENDING_MOVIES_PATH cfg)
    (filename r).

Definition dest_path (cfg : config) (r : row) : string :=
  os_path_join
    (if bool_decide (media_type r = "tv") then PLEX_TV_PATH cfg
     else PLEX_MOVIES_PATH cfg)
    (original_filename r).

End Main.

(** ** app/routes.py *)

Module Routes.

(** [class Config]: the four directories are constants of the class, the
    other two settings come from the process environment. *)
Record config := {
  APP_NAME : string;
  ADMIN_EMAIL : string
}.

Definition PENDING_MOVIES : string := "/data/pending/movies".
Definition PENDING_TV : string := "/data/pending/tv".
Definition PLEX_MOVIES : string := "/data/plex/movies".
Definition PLEX_TV : string := "/data/plex/tv".

(** A row of [uploads] (schema of [init_db]): the key is an AUTOINCREMENT
    integer and there is no review date. *)
Record row := {
  id : nat;
  filename : string;
  original_filename : string;
  media_type : string;
  uploader_email : string;
  upload_date : string;
  status : review_status;
  file_size : nat;
  notes : string
}.

#[global] Instance row_eq_dec : EqDecision row.
Proof. solve_decision. Defined.

Record world := {
  uploads : list row;
  files : filesystem;
  outbox : list effect
}.

Definition set_uploads (db : list row) (w : world) : world :=
  {| uploads := db; files := files w; outbox := outbox w |}.

Definition set_files (fs : filesystem) (w : world) : world :=
  {| uploads := uploads w; files := fs; outbox := outbox w |}.

Definition emit (e : effect) (w : world) : world :=
  {| uploads := uploads w; files := files w; outbox := outbox w ++ [e] |}.

(** [flash(msg, category)] calls of the request, then
    [redirect(url_for(endpoint))]; [InternalServerError] when an exception
    escapes the view. *)
Inductive response :=
| Redirect (flashes : list (string * string)) (endpoint : string)
| InternalServerError.

#[global] Instance response_eq_dec : EqDecision response.
Proof. solve_decision. Defined.

Definition select_by_id (i : nat) (db : list row) : option row :=
  List.find (λ r, bool_decide (id r = i)) db.

Definition set_status (s : review_status) (r : row) : row :=
  {| id := id r; filename := filename r;
     original_filename := original_filename r; media_type := media_type r;
     uploader_email := uploader_email r; upload_date := upload_date r;
     status := s; file_size := file_size r; notes := notes r |}.

(** [UPDATE uploads SET status = ? WHERE id = ?] *)
Definition update_status (i : nat) (s : review_status) (db : list row)
    : list row :=
  List.map (λ r, if bool_decide (id r = i) then set_status s r else r) db.

(** AUTOINCREMENT: one more than the largest key of the table (rows are
    never deleted). *)
Definition next_id (db : list row) : nat :=
  S (foldr Nat.max 0 (List.map id db)).

Definition get_user_email (cf_access_email : option string) : string :=
  default "anonymous@unknown.com" cf_access_email.

Definition dquote : string := String (ascii_of_nat 34) EmptyString.

Definition admin_required (admin_logged_in : bool)
    (f : world → response * world) (w : world) : response * world :=
  if admin_logged_in then f w else (Redirect [] "admin_login", w).

Section Handlers.
Variable cfg : config.
(** [werkzeug.utils.secure_filename] *)
Variable secure_filename : string → string.

Record upload_request := {
  req_file : option (string * string);   (* request.files['file']: name, bytes *)
  req_media_type : option string;        (* request.form['media_type'] *)
  req_notes : option string;             (* request.form['notes'] *)
  req_cf_email : option string           (* Cf-Access-Authenticated-User-Email *)
}.

Definition upload (e : env) (rq : upload_request) (w : world)
    : response * world :=
  let user_email := get_user_email (req_cf_email rq) in
  let mt := default "movie" (req_media_type rq) in
  match req_file rq with
  | None => (Redirect [("No file selected", "error")] "index", w)
  | Some (file_filename, bytes) =>
    if bool_decide (file_filename = "") then
      (Redirect [("No file selected", "error")] "index", w)
    else
      let dest_folder :=
        if bool_decide (mt = "tv") then PENDING_TV else PENDING_MOVIES in
      match mkdir_error e with
      | Some _ => (InternalServerError, w)
      | None =>
        let original := file_filename in
        let safe_filename := secure_filename original in
        (* Add timestamp to prevent overwrites *)
        let timestamp := strftime_now e in
        let fname := timestamp +:+ "_" +:+ safe_filename in
        let filepath := os_path_join dest_folder fname in
        match file_save (save_error e) filepath bytes (files w) with
        | inl _ => (InternalServerError, w)
        | inr fs =>
          let w1 := set_files fs w in
          let r := {| id := next_id (uploads w1); filename := fname;
                      original_filename := original; media_type := mt;
                      uploader_email := user_email; upload_date := now e;
                      status := Pending; file_size := String.length bytes;
                      notes := default "" (req_notes rq) |} in
          let w2 := set_uploads (uploads w1 ++ [r]) w1 in
          let w3 := emit (SendEmail (ADMIN_EMAIL cfg)
                            ("New Upload - " +:+ APP_NAME cfg)) w2 in
          let w4 := emit (SendDiscord "New Upload" original) w3 in
          (Redirect [("Upload successful! " +:+ dquote +:+ original +:+ dquote
                        +:+ " is pending approval.", "success")] "index", w4)
        end
      end
  end.

Definition approve (e : env) (upload_id : nat) (w : world)
    : response * world :=
  match select_by_id upload_id (uploads w) with
  | None => (Redirect [("Upload not found", "error")] "admin", w)
  | Some upload =>
    let '(src_folder, dest_folder) :=
      if bool_decide (media_type upload = "tv")
      then (PENDING_TV, PLEX_TV) else (PENDING_MOVIES, PLEX_MOVIES) in
    let src_path := os_path_join src_folder (filename upload) in
    (* Use original filename for Plex *)
    let dest_path := os_path_join dest_folder (original_filename upload) in
    let attempt : string + world :=
      match mkdir_error e with
      | Some msg => inl msg
      | None =>
        match shutil_move (move_error e) src_path dest_path (files w) with
        | inl msg => inl msg
        | inr fs =>
          let w1 := set_files fs w in
          let w2 := set_uploads (update_status upload_id Approved (uploads w1)) w1 in
          let w3 := emit (SendEmail (uploader_email upload)
                            ("Upload Approved - " +:+ APP_NAME cfg)) w2 in
          let w4 := emit (SendDiscord "Approved" (original_filename upload)) w3 in
          inr (emit (PlexScan None) w4)
        end
      end in
    match attempt with
    | inr w' =>
        (Redirect [("Approved: " +:+ original_filename upload, "success")] "admin", w')
    | inl msg =>
        (Redirect [("Error moving file: " +:+ msg, "error")] "admin", w)
    end
  end.

Definition deny (e : env) (upload_id : nat) (w : world)
    : response * world :=
  match select_by_id upload_id (uploads w) with
  | None => (Redirect [("Upload not found", "error")] "admin", w)
  | Some upload =>
    let src_folder :=
      if bool_decide (media_type upload = "tv") then PENDING_TV
      else PENDING_MOVIES in
    let src_path := os_path_join src_folder (filename upload) in
    let removed : string + world :=
      if path_exists src_path (files w) then
        match os_remove (remove_error e) src_path (files w) with
        | inl msg => inl msg
        | inr fs => inr (set_files fs w)
        end
      else inr w in
    match removed with
    | inl msg =>
        (Redirect [("Error removing file: " +:+ msg, "error")] "admin", w)
    | inr w1 =>
        let w2 := set_uploads (update_status upload_id Denied (uploads w1)) w1 in
        let w3 := emit (SendEmail (uploader_email upload)
                          ("Upload Not Approved - " +:+ APP_NAME cfg)) w2 in
        let w4 := emit (SendDiscord "Denied" (original_filename upload)) w3 in
        (Redirect [("Denied: " +:+ original_filename upload, "success")] "admin", w4)
    end
  end.

(** The two listings of [admin]: pending, recent. *)
Definition admin (w : world) : list row * list row :=
  let pending :=
    order_by_desc upload_date String.leb
      (filter (λ r, status r = Pending) (uploads w)) in
  let recent :=
    limit 20 (order_by_desc upload_date String.leb
      (filter (λ r, status r ≠ Pending) (uploads w))) in
  (pending, recent).

Inductive request :=
| ReqUpload (rq : upload_request)
| ReqApprove (admin_logged_in : bool) (upload_id : nat)
| ReqDeny (admin_logged_in : bool) (upload_id : nat).

Definition handle (e : env) (r : request) (w : world) : response * world :=
  match r with
  | ReqUpload rq => upload e rq w
  | ReqApprove a i => admin_required a (approve e i) w
  | ReqDeny a i => admin_required a (deny e i) w
  end.

Fixpoint run (l : list (env * request)) (w : world) : world :=
  match l with
  | [] => w
  | (e, r) :: l' => run l' (snd (handle e r w))
  end.
End Handlers.

Definition empty_world : world :=
  {| uploads := []; files := ∅; outbox := [] |}.

(** The paths [approve] and [deny] compute for a row. *)
Definition src_path (r : row) : string :=
  os_path_join
    (if bool_decide (media_type r = "tv") then PENDING_TV else PENDING_MOVIES)
    (filename r).

Definition dest_path (r : row) : string :=
  os_path_join
    (if bool_decide (media_type r = "tv") then PLEX_TV else PLEX_MOVIES)
    (original_filename r).

End Routes.

(** ** Relations and predicates used in the statements *)

(** The store operations of main.py, as a relation between the table before
    and after: nothing, the INSERT of [upload_file] (with the stored name it
    builds, [sf] standing for [secure_filename]), and the two UPDATEs of
    [approve_upload] and [deny_upload]. *)
Inductive main_store_step (sf : string → string)
    : list Main.row → list Main.row → Prop :=
| store_unchanged db :
    main_store_step sf db db
| store_insert db r :
    Main.select_by_id (Main.id r) db = None →
    Main.status r = Pending →
    Main.reviewed_date r = None →
    Main.filename r = Main.id r +:+ "_" +:+ sf (Main.original_filename r) →
    main_store_step sf db (db ++ [r])
| store_approve db i t r :
    Main.select_by_id i db = Some r →
    Main.status r = Pending →
    main_store_step sf db (Main.update_where_id i (Main.set_approved t) db)
| store_deny db i t n r :
    Main.select_by_id i db = Some r →
    Main.status r = Pending →
    main_store_step sf db (Main.update_where_id i (Main.set_denied t n) db).

(** The stored name [upload_file] gives a row. *)
Definition main_stored_name (sf : string → string) (r : Main.row) : Prop :=
  Main.filename r = Main.id r +:+ "_" +:+ sf (Main.original_filename r).

(** What may happen to one row in one store operation: nothing, or the
    review of a Pending row, which sets status and review date at once. *)
Definition main_row_step (r r' : Main.row) : Prop :=
  r' = r
  ∨ (Main.status r = Pending
     ∧ ∃ t, r' = Main.set_approved t r ∨ ∃ n, r' = Main.set_denied t n r).

(** In a table of main.py a row has a review date exactly when it is no
    longer Pending. *)
Definition main_reviewed_iff_dated (r : Main.row) : Prop :=
  Main.status r = Pending ↔ Main.reviewed_date r = None.

(** The world after the [try] block of [deny_upload] that removes the
    pending file. *)
Definition main_after_remove (cfg : Main.config) (e : env) (r : Main.row)
    (w : Main.world) : Main.world :=
  if path_exists (Main.source_path cfg r) (Main.files w) then
    match os_remove (remove_error e) (Main.source_path cfg r) (Main.files w) with
    | inl msg => Main.emit (LogError ("Failed to delete file: " +:+ msg)) w
    | inr fs => Main.set_files fs w
    end
  else w.

(** ** Sample inputs *)

(** An environment in which nothing fails. *)
Definition quiet (t ts u : string) : env :=
  {| now := t; strftime_now := ts; uuid4 := u;
     mkdir_error := None; save_error := None; move_error := None;
     remove_error := None; scan_error := None; notify_error := None |}.

(** An environment in which [os.remove] raises. *)
Definition remove_denied (t : string) : env :=
  {| now := t; strftime_now := ""; uuid4 := "";
     mkdir_error := None; save_error := None; move_error := None;
     remove_error := Some "[Errno 13] Permission denied";
     scan_error := None; notify_error := None |}.

(** [secure_filename] leaves a name made of ASCII letters, digits, '.' and
    '_' as it is; the samples below use such names only. *)
Definition plain_name (s : string) : string := s.

Definition main_upload_of (name bytes mt : string) : Main.upload_request :=
  {| Main.req_file := Some (name, bytes);
     Main.req_media_type := Some mt;
     Main.req_headers := {| Main.cf_access_email := Some "a@x.com";
                            Main.x_user_email := None |} |}.

(** A Pending movie upload of main.py, and worlds holding it with and
    without its pending file. *)
Definition main_row1 : Main.row :=
  {| Main.id := "u1"; Main.filename := "u1_Movie.mkv";
     Main.original_filename := "Movie.mkv"; Main.media_type := "movie";
     Main.uploader_email := "a@x.com";
     Main.upload_date := "2024-01-01T10:00:00";
     Main.status := Pending; Main.reviewed_date := None;
     Main.file_size := 3; Main.notes := None |}.

Definition main_world_no_file : Main.world :=
  {| Main.uploads := [main_row1]; Main.files := ∅; Main.outbox := [] |}.

Definition main_world_with_file : Main.world :=
  {| Main.uploads := [main_row1];
     Main.files := {[ "/data/pending/movies/u1_Movie.mkv" := "AAA" ]};
     Main.outbox := [] |}.



(** main.py, the scenario of one upload: Movie.mkv uploaded from a@x.com,
    then approved. *)
Definition main_uploaded : Main.world :=
  snd (Main.upload_file Main.default_config plain_name
         (quiet "2024-01-01T10:00:00" "" "u1")
         (main_upload_of "Movie.mkv" "AAA" "movie") Main.empty_world).

Definition main_approved : Main.world :=
  snd (Main.approve_upload Main.default_config
         (quiet "2024-01-01T11:00:00" "" "") "u1" main_uploaded).

Definition routes_cfg : Routes.config :=
  {| Routes.APP_NAME := "Bozloader"; Routes.ADMIN_EMAIL := "admin@x.com" |}.

Definition routes_upload_of (name bytes : string) : Routes.upload_request :=
  {| Routes.req_file := Some (name, bytes);
     Routes.req_media_type := Some "movie";
     Routes.req_notes := None;
     Routes.req_cf_email := Some "a@x.com" |}.

(** A Pending movie upload of routes.py, and worlds holding it with and
    without its pending file. *)
Definition routes_row1 : Routes.row :=
  {| Routes.id := 1; Routes.filename := "20240101_100000_Movie.mkv";
     Routes.original_filename := "Movie.mkv"; Routes.media_type := "movie";
     Routes.uploader_email := "a@x.com";
     Routes.upload_date := "2024-01-01 10:00:00";
     Routes.status := Pending; Routes.file_size := 3; Routes.notes := "" |}.

Definition routes_world_no_file : Routes.world :=
  {| Routes.uploads := [routes_row1]; Routes.files := ∅;
     Routes.outbox := [] |}.

Definition routes_world_with_file : Routes.world :=
  {| Routes.uploads := [routes_row1];
     Routes.files := {[ "/data/pending/movies/20240101_100000_Movie.mkv" := "AAA" ]};
     Routes.outbox := [] |}.



(** routes.py, one upload then reviews: the world after uploading
    Movie.mkv, after denying it, and after approving it instead. *)
Definition routes_uploaded : Routes.world :=
  snd (Routes.upload routes_cfg plain_name
         (quiet "2024-01-01 10:00:00" "20240101_100000" "")
         (routes_upload_of "Movie.mkv" "AAA") Routes.empty_world).

Definition routes_denied : Routes.world :=
  snd (Routes.deny routes_cfg (quiet "2024-01-01 11:00:00" "" "") 1
         routes_uploaded).

Definition routes_approved : Routes.world :=
  snd (Routes.approve routes_cfg (quiet "2024-01-01 11:00:00" "" "") 1
         routes_uploaded).

(** ** Admin authentication (main.py and routes.py)

    The [admin] table, the session flag and the three views that work on
    them. The two files differ only in the endpoint of the review page
    ([panel]: 'admin_panel' in main.py, 'admin' in routes.py) and in the
    columns that hold times. [sha256] stands for
    [hashlib.sha256(s.encode()).hexdigest()]. Passwords are ASCII, so that
    [len] counts the characters of the string. One client session is
    followed. *)

Module Auth.

Record admin_row := {
  admin_id : nat;
  password_hash : string;
  must_change_password : bool;
  created_at : option string;
  last_login : option string
}.

#[global] Instance admin_row_eq_dec : EqDecision admin_row.
Proof. solve_decision. Defined.

Record state := {
  admins : list admin_row;      (* the admin table *)
  admin_logged_in : bool        (* session.get('admin_logged_in') *)
}.

Inductive method := GET | POST.

(** [redirect(url_for(endpoint))] or [render_template(...)], with the
    messages flashed by the request. *)
Inductive response :=
| Redirect (flashes : list (string * string)) (endpoint : string)
| RenderLogin (flashes : list (string * string))
| RenderChangePassword (flashes : list (string * string)) (force_change : bool).

Definition flashes_of (r : response) : list (string * string) :=
  match r with
  | Redirect f _ => f
  | RenderLogin f => f
  | RenderChangePassword f _ => f
  end.

(** [SELECT ... FROM admin WHERE id = 1] then [fetchone()]. *)
Definition select_admin (db : list admin_row) : option admin_row :=
  List.find (λ a, bool_decide (admin_id a = 1)) db.

(** [UPDATE admin SET ... WHERE id = 1] *)
Definition update_admin (f : admin_row → admin_row) (db : list admin_row)
    : list admin_row :=
  List.map (λ a, if bool_decide (admin_id a = 1) then f a else a) db.

Definition set_last_login (t : string) (a : admin_row) : admin_row :=
  {| admin_id := admin_id a; password_hash := password_hash a;
     must_change_password := must_change_password a;
     created_at := created_at a; last_login := Some t |}.

Definition set_password (h : string) (a : admin_row) : admin_row :=
  {| admin_id := admin_id a; password_hash := h;
     must_change_password := false;
     created_at := created_at a; last_login := last_login a |}.

Section Views.
Variable sha256 : string → string.
Variable panel : string.

Definition hash_password (password : string) : string := sha256 password.

(** The admin part of [init_db]: the default admin is inserted when the
    table is empty (its row count is 0); its key is the first AUTOINCREMENT
    value. *)
Definition init_db (t : string) (db : list admin_row) : list admin_row :=
  match db with
  | [] => [{| admin_id := 1; password_hash := sha256 "admin";
              must_change_password := true;
              created_at := Some t; last_login := None |}]
  | _ => db
  end.

Definition admin_login (e : env) (m : method) (form_password : option string)
    (s : state) : response * state :=
  if admin_logged_in s then (Redirect [] panel, s)
  else
    match m with
    | POST =>
      let password := default "" form_password in
      let h := hash_password password in
      match select_admin (admins s) with
      | Some admin =>
        if bool_decide (password_hash admin = h) then
          let s' := {| admins := update_admin (set_last_login (now e)) (admins s);
                       admin_logged_in := true |} in
          if must_change_password admin
          then (Redirect [] "admin_change_password", s')
          else (Redirect [] panel, s')
        else (RenderLogin [("Invalid password", "error")], s)
      | None => (RenderLogin [("Invalid password", "error")], s)
      end
    | GET => (RenderLogin [], s)
    end.

Definition admin_change_password (m : method)
    (form_new form_confirm : option string) (s : state) : response * state :=
  if negb (admin_logged_in s) then (Redirect [] "admin_login", s)
  else
    let force_change :=
      match select_admin (admins s) with
      | Some admin => must_change_password admin
      | None => false
      end in
    match m with
    | POST =>
      let new_password := default "" form_new in
      let confirm_password := default "" form_confirm in
      if (String.length new_password <? 6)%nat then
        (RenderChangePassword
           [("Password must be at least 6 characters", "error")] force_change, s)
      else if negb (bool_decide (new_password = confirm_password)) then
        (RenderChangePassword [("Passwords do not match", "error")] force_change, s)
      else if bool_decide (new_password = "admin") then
        (RenderChangePassword
           [("Please choose a different password", "error")] force_change, s)
      else
        (Redirect [("Password changed successfully!", "success")] panel,
         {| admins := update_admin (set_password (hash_password new_password))
                        (admins s);
            admin_logged_in := admin_logged_in s |})
    | GET => (RenderChangePassword [] force_change, s)
    end.

Definition admin_logout (s : state) : response * state :=
  (Redirect [("Logged out successfully", "success")] "index",
   {| admins := admins s; admin_logged_in := false |}).

End Views.

End Auth.

(** ** main.py as one application: the workflow and the admin session *)

Module App.

Record app := {
  world : Main.world;
  auth : Auth.state
}.

Inductive request :=
| Upload (rq : Main.upload_request)
| Approve (upload_id : string)
| Deny (form_notes : option string) (upload_id : string)
| Login (m : Auth.method) (form_password : option string)
| ChangePassword (m : Auth.method) (form_new form_confirm : option string)
| Logout.

Section Serve.
Variable cfg : Main.config.
Variable secure_filename : string → string.
Variable sha256 : string → string.

Definition workflow (e : env) (rq : Main.request) (a : app)
    : (Main.response + Auth.response) * app :=
  let '(r, w) := Main.handle cfg secure_filename e rq (world a) in
  (inl r, {| world := w; auth := auth a |}).

Definition session (f : Auth.state → Auth.response * Auth.state) (a : app)
    : (Main.response + Auth.response) * app :=
  let '(r, s) := f (auth a) in
  (inr r, {| world := world a; auth := s |}).

(** The approve and deny routes read the session flag of the caller. *)
Definition handle (e : env) (rq : request) (a : app)
    : (Main.response + Auth.response) * app :=
  match rq with
  | Upload u => workflow e (Main.ReqUpload u) a
  | Approve i =>
      workflow e (Main.ReqApprove (Auth.admin_logged_in (auth a)) i) a
  | Deny n i =>
      workflow e (Main.ReqDeny (Auth.admin_logged_in (auth a)) n i) a
  | Login m p => session (Auth.admin_login sha256 "admin_panel" e m p) a
  | ChangePassword m n c =>
      session (Auth.admin_change_password sha256 "admin_panel" m n c) a
  | Logout => session Auth.admin_logout a
  end.

Fixpoint run (l : list (env * request)) (a : app) : app :=
  match l with
  | [] => a
  | (e, rq) :: l' => run l' (snd (handle e rq a))
  end.

(** A request that would open the session in state [s]: a POST to the login
    view with a password whose hash is the stored one. *)
Definition opens_session (s : Auth.state) (rq : request) : bool :=
  match rq with
  | Login Auth.POST p =>
      match Auth.select_admin (Auth.admins s) with
      | Some admin =>
          bool_decide (Auth.password_hash admin = sha256 (default "" p))
      | None => false
      end
  | _ => false
  end.

End Serve.

End App.

(** A stand-in for sha256 in the samples: injective, like the hash is
    taken to be. *)
Definition sample_hash (s : string) : string := "sha256:" +:+ s.

(** The session of a visitor on a database that [init_db] has just
    created. *)
Definition fresh_auth : Auth.state :=
  {| Auth.admins := Auth.init_db sample_hash "2024-01-01T09:00:00" [];
     Auth.admin_logged_in := false |}.

(** The same after the default password opened the session. *)
Definition default_login_auth : Auth.state :=
  snd (Auth.admin_login sample_hash "admin_panel"
         (quiet "2024-01-01T09:30:00" "" "") Auth.POST (Some "admin")
         fresh_auth).

(** ** Further views of main.py *)

(** The row [upload_file] inserts for the file [name] with content
    [bytes]. *)
Definition uploaded_row (sf : string → string) (e : env)
    (rq : Main.upload_request) (name bytes : string) : Main.row :=
  {| Main.id := uuid4 e;
     Main.filename := uuid4 e +:+ "_" +:+ sf name;
     Main.original_filename := name;
     Main.media_type := default "movie" (Main.req_media_type rq);
     Main.uploader_email := Main.get_user_email (Main.req_headers rq);
     Main.upload_date := now e;
     Main.status := Pending; Main.reviewed_date := None;
     Main.file_size := String.length bytes; Main.notes := None |}.

(** The JSON object of [upload_status]. *)
Record status_json := {
  json_id : string;
  json_filename : string;
  json_status : review_status;
  json_media_type : string;
  json_upload_date : string;
  json_reviewed_date : option string
}.

(** [upload_status]: the error of an unknown id, or the fields of the
    row. *)
Definition upload_status (upload_id : string) (w : Main.world)
    : Main.response + status_json :=
  match Main.select_by_id upload_id (Main.uploads w) with
  | None => inl (Main.JsonError 404 "Upload not found")
  | Some upload =>
      inr {| json_id := Main.id upload;
             json_filename := Main.original_filename upload;
             json_status := Main.status upload;
             json_media_type := Main.media_type upload;
             json_upload_date := Main.upload_date upload;
             json_reviewed_date := Main.reviewed_date upload |}
  end.

(** [secure_filename] on the one sample name with a directory part. *)
Definition sample_secure_filename (s : string) : string :=
  if bool_decide (s = "/tmp/evil.mkv") then "tmp_evil.mkv" else s.

(** [my_uploads] of routes.py; [cf] is the Cloudflare header of the
    request. *)
Definition routes_my_uploads (cf : option string) (w : Routes.world)
    : list Routes.row :=
  order_by_desc Routes.upload_date String.leb
    (filter (λ r, Routes.uploader_email r = Routes.get_user_email cf)
       (Routes.uploads w)).

(** An environment in which [shutil.move] and the notification raise. *)
Definition noisy (t : string) : env :=
  {| now := t; strftime_now := ""; uuid4 := "";
     mkdir_error := None; save_error := None;
     move_error := Some "[Errno 13] Permission denied";
     remove_error := Some "[Errno 13] Permission denied";
     scan_error := None; notify_error := Some "SMTP down" |}.

(** Two uploads of main.py with the same file name. *)
Definition main_two_uploads : list (env * Main.request) :=
  [(quiet "2024-01-01T10:00:00" "" "u1",
    Main.ReqUpload (main_upload_of "Movie.mkv" "AAA" "movie"));
   (quiet "2024-01-01T10:05:00" "" "u2",
    Main.ReqUpload (main_upload_of "Movie.mkv" "BBB" "movie"))].

(** ** plex_integration.py

    The Plex server is seen through the two GET requests the module makes:
    the listing of the library sections, whose reply is an exception or the
    [Directory] elements of the XML document in document order, each with
    its optional [title] and [key] attributes, and the refresh of one
    section, which raises or not. Each function returns its result and the
    URLs it requested, in order. *)

Module Plex.

Record config := {
  PLEX_URL : string;
  PLEX_TOKEN : string
}.

(** [PLEX_ENABLED = bool(os.getenv('PLEX_TOKEN', ''))] *)
Definition PLEX_ENABLED (cfg : config) : bool :=
  negb (bool_decide (PLEX_TOKEN cfg = "")).

Record directory := {
  title : option string;
  key : option string
}.

Record server := {
  sections_reply : string + list directory;
  refresh_error : option string
}.

Definition sections_url (cfg : config) : string :=
  PLEX_URL cfg +:+ "/library/sections?X-Plex-Token=" +:+ PLEX_TOKEN cfg.

Definition refresh_url (cfg : config) (section_id : string) : string :=
  PLEX_URL cfg +:+ "/library/sections/" +:+ section_id
    +:+ "/refresh?X-Plex-Token=" +:+ PLEX_TOKEN cfg.

(** The loop over [root.findall('.//Directory')]: the key of the first
    directory with the title, whatever that key is. *)
Fixpoint first_titled (library_name : string) (dirs : list directory)
    : option string :=
  match dirs with
  | [] => None
  | d :: dirs' =>
      if bool_decide (title d = Some library_name) then key d
      else first_titled library_name dirs'
  end.

Definition get_library_section_id (cfg : config) (srv : server)
    (library_name : string) : option string * list string :=
  if negb (PLEX_ENABLED cfg) then (None, [])
  else
    match sections_reply srv with
    | inl _ => (None, [sections_url cfg])
    | inr dirs => (first_titled library_name dirs, [sections_url cfg])
    end.

(** [not section_id]: no key, or the empty key. *)
Definition falsy (section_id : option string) : bool :=
  match section_id with
  | None => true
  | Some k => bool_decide (k = "")
  end.

Definition trigger_plex_scan (cfg : config) (srv : server)
    (library_name : string) : bool * list string :=
  if negb (PLEX_ENABLED cfg) then (false, [])
  else
    let '(section_id, requested) :=
      get_library_section_id cfg srv library_name in
    if falsy section_id then (false, requested)
    else
      let url := refresh_url cfg (default "" section_id) in
      match refresh_error srv with
      | Some _ => (false, requested ++ [url])
      | None => (true, requested ++ [url])
      end.

End Plex.

(** A Plex server with two libraries of the same title, the first without
    a key. *)
Definition plex_cfg : Plex.config :=
  {| Plex.PLEX_URL := "http://localhost:32400"; Plex.PLEX_TOKEN := "tok" |}.

Definition plex_two_movies : Plex.server :=
  {| Plex.sections_reply :=
       inr [ {| Plex.title := Some "Movies"; Plex.key := None |};
             {| Plex.title := Some "Movies"; Plex.key := Some "2" |} ];
     Plex.refresh_error := None |}.

Definition plex_one_movies : Plex.server :=
  {| Plex.sections_reply :=
       inr [ {| Plex.title := Some "TV Shows"; Plex.key := Some "1" |};
             {| Plex.title := Some "Movies"; Plex.key := Some "2" |} ];
     Plex.refresh_error := None |}.

(** ** notifications.py

    The SMTP server and the Discord webhook are seen through the failures
    they cause. Each function returns the exception it raises, if any, and
    the deliveries it attempted, in order. Subjects and bodies are not
    represented: an attempt carries the recipient and the kind of
    message. *)

Module Notify.

Record config := {
  EMAIL_ENABLED : bool;
  SMTP_USERNAME : string;
  SMTP_PASSWORD : string;
  DISCORD_WEBHOOK_URL : string;
  ADMIN_EMAILS : list string
}.

(** [DISCORD_ENABLED = bool(os.getenv('DISCORD_WEBHOOK_URL', ''))] *)
Definition DISCORD_ENABLED (cfg : config) : bool :=
  negb (bool_decide (DISCORD_WEBHOOK_URL cfg = "")).

Record network := {
  smtp_error : string → option string;   (* by recipient *)
  discord_error : option string
}.

Inductive attempt :=
| Smtp (recipient kind : string)
| Webhook (kind : string).

#[global] Instance attempt_eq_dec : EqDecision attempt.
Proof. solve_decision. Defined.

Definition send_email (cfg : config) (net : network) (to_email kind : string)
    : option string * list attempt :=
  if negb (EMAIL_ENABLED cfg) then (None, [])
  else if bool_decide (SMTP_USERNAME cfg = "")
          || bool_decide (SMTP_PASSWORD cfg = "") then (None, [])
  else (smtp_error net to_email, [Smtp to_email kind]).

Definition send_discord_notification (cfg : config) (net : network)
    (kind : string) : option string * list attempt :=
  if negb (DISCORD_ENABLED cfg) || bool_decide (DISCORD_WEBHOOK_URL cfg = "")
  then (None, [])
  else (discord_error net, [Webhook kind]).

(** [try: call except Exception as e: print(...)] *)
Definition swallow (r : option string * list attempt) : list attempt := snd r.

Definition send_upload_notification (cfg : config) (net : network)
    (uploader_email : string) : option string * list attempt :=
  let to_user :=
    swallow (send_email cfg net uploader_email "Upload Request Received") in
  let to_admins :=
    flat_map (λ admin_email,
                swallow (send_email cfg net admin_email "New Upload Pending"))
      (ADMIN_EMAILS cfg) in
  let to_discord :=
    if DISCORD_ENABLED cfg
    then swallow (send_discord_notification cfg net "New Upload") else [] in
  (None, to_user ++ to_admins ++ to_discord).

Definition send_approval_notification (cfg : config) (net : network)
    (uploader_email : string) : option string * list attempt :=
  match send_email cfg net uploader_email "Upload Approved" with
  | (Some exn, sent) => (Some exn, sent)
  | (None, sent) =>
      (None,
       sent ++ (if DISCORD_ENABLED cfg
                then swallow (send_discord_notification cfg net "Upload Approved")
                else []))
  end.

Definition send_denial_notification (cfg : config) (net : network)
    (uploader_email : string) : option string * list attempt :=
  match send_email cfg net uploader_email "Upload Not Approved" with
  | (Some exn, sent) => (Some exn, sent)
  | (None, sent) =>
      (None,
       sent ++ (if DISCORD_ENABLED cfg
                then swallow (send_discord_notification cfg net "Upload Denied")
                else []))
  end.

(** Mail is sent at all: the two guards of [send_email] pass. *)
Definition mail_active (cfg : config) : bool :=
  EMAIL_ENABLED cfg
  && negb (bool_decide (SMTP_USERNAME cfg = ""))
  && negb (bool_decide (SMTP_PASSWORD cfg = "")).

End Notify.

(** Mail and Discord both configured, two admins; an SMTP server that
    refuses every message. *)
Definition notify_cfg : Notify.config :=
  {| Notify.EMAIL_ENABLED := true;
     Notify.SMTP_USERNAME := "bot"; Notify.SMTP_PASSWORD := "pw";
     Notify.DISCORD_WEBHOOK_URL := "https://discord.example/hook";
     Notify.ADMIN_EMAILS := ["root@x.com"; "ops@x.com"] |}.

Definition smtp_down : Notify.network :=
  {| Notify.smtp_error := λ _, Some "Connection refused";
     Notify.discord_error := None |}.

(** ** config.py: the list of admin addresses

    [ADMIN_EMAILS] is read from the environment variable of the same name:
    the value is split at the commas, each piece is stripped of white space
    and the empty ones are dropped. White space is the ASCII white space of
    [str.isspace]. *)

Module Conf.

Definition is_space (c : ascii) : bool :=
  let n := nat_of_ascii c in
  ((9 <=? n)%nat && (n <=? 13)%nat)
  || ((28 <=? n)%nat && (n <=? 32)%nat).

Fixpoint lstrip (s : string) : string :=
  match s with
  | EmptyString => EmptyString
  | String c s' => if is_space c then lstrip s' else s
  end.

Fixpoint rstrip (s : string) : string :=
  match s with
  | EmptyString => EmptyString
  | String c s' =>
      match rstrip s' with
      | EmptyString => if is_space c then EmptyString else String c EmptyString
      | r => String c r
      end
  end.

Definition strip (s : string) : string := rstrip (lstrip s).

(** [s.split(',')] *)
Fixpoint split_comma (s : string) : list string :=
  match s with
  | EmptyString => [EmptyString]
  | String c s' =>
      if Ascii.eqb c "," then EmptyString :: split_comma s'
      else
        match split_comma s' with
        | piece :: pieces => String c piece :: pieces
        | [] => [String c EmptyString]
        end
  end.

(** [getenv] is [os.getenv('ADMIN_EMAILS')]. *)
Definition ADMIN_EMAILS (getenv : option string) : list string :=
  List.filter (λ email, negb (bool_decide (email = "")))
    (List.map strip (split_comma (default "admin@example.com" getenv))).

End Conf.

(** A string contains a comma. *)
Fixpoint has_comma (s : string) : bool :=
  match s with
  | EmptyString => false
  | String c s' => Ascii.eqb c "," || has_comma s'
  end.

(** An address as [ADMIN_EMAILS] holds them: not empty, no comma, no white
    space at either end. *)
Definition clean_address (s : string) : Prop :=
  s ≠ "" ∧ has_comma s = false ∧ Conf.strip s = s.



(** * Properties *)

(** ** Queries on the table of main.py *)

Lemma main_select_by_id_Some (i : string) (db : list Main.row) (r : Main.row) :
  Main.select_by_id i db = Some r → Main.id r = i ∧ In r db.
Proof.
  unfold Main.select_by_id. intros H.
  apply find_some in H as [Hin Hid].
  apply bool_decide_eq_true in Hid. auto.
Qed.

Lemma main_select_update_same (i : string) (f : Main.row → Main.row)
    (db : list Main.row) (r : Main.row) :
  (∀ x, Main.id (f x) = Main.id x) →
  Main.select_by_id i db = Some r →
  Main.select_by_id i (Main.update_where_id i f db) = Some (f r).
Proof.
  intros Hf. unfold Main.select_by_id, Main.update_where_id.
  induction db as [|x db IH]; simpl; [discriminate|].
  destruct (bool_decide (Main.id x = i)) eqn:E.
  - intros [= ->]. rewrite Hf, E. reflexivity.
  - rewrite E. exact IH.
Qed.

Lemma main_select_update_other (i j : string) (f : Main.row → Main.row)
    (db : list Main.row) :
  (∀ x, Main.id (f x) = Main.id x) →
  i ≠ j →
  Main.select_by_id j (Main.update_where_id i f db) = Main.select_by_id j db.
Proof.
  intros Hf Hne. unfold Main.select_by_id, Main.update_where_id.
  induction db as [|x db IH]; simpl; [reflexivity|].
  destruct (bool_decide (Main.id x = i)) eqn:E.
  - apply bool_decide_eq_true in E.
    rewrite Hf.
    assert (bool_decide (Main.id x = j) = false) as ->
      by (apply bool_decide_eq_false; congruence).
    exact IH.
  - destruct (bool_decide (Main.id x = j)); [reflexivity | exact IH].
Qed.

Lemma main_set_approved_id (t : string) (r : Main.row) :
  Main.id (Main.set_approved t r) = Main.id r.
Proof. reflexivity. Qed.

Lemma main_set_denied_id (t n : string) (r : Main.row) :
  Main.id (Main.set_denied t n r) = Main.id r.
Proof. reflexivity. Qed.

Lemma shutil_move_fails (fault : option string) (src dst : string)
    (fs : filesystem) :
  fs !! src = None ∨ fault ≠ None →
  ∃ msg, shutil_move fault src dst fs = inl msg.
Proof.
  unfold shutil_move. intros [Hsrc | Hfault].
  - rewrite Hsrc. eauto.
  - destruct (fs !! src); [|eauto].
    destruct fault; [eauto | congruence].
Qed.

Lemma shutil_move_ok (src dst bytes : string) (fs : filesystem) :
  fs !! src = Some bytes →
  shutil_move None src dst fs = inr (<[dst := bytes]> (delete src fs)).
Proof. unfold shutil_move. intros ->. reflexivity. Qed.

(** ** approve when the move fails *)

Section MainApprove.
Variable cfg : Main.config.

Lemma main_approve_unfold (e : env) (i : string) (w : Main.world)
    (r : Main.row) :
  Main.select_by_id i (Main.uploads w) = Some r →
  Main.status r = Pending →
  Main.approve_upload cfg e i w =
    match mkdir_error e with
    | Some _ => (Main.server_error, w)
    | None =>
      match shutil_move (move_error e) (Main.source_path cfg r)
              (Main.dest_path cfg r) (Main.files w) with
      | inl msg => (Main.JsonError 500 ("Failed to move file: " +:+ msg), w)
      | inr fs =>
        (Main.JsonSuccess "Upload approved and added to Plex!" None,
         Main.try_call (notify_error e)
           (ApprovalNotification (Main.uploader_email r)
              (Main.original_filename r) (Main.media_type r))
           "Failed to send approval notification: "
           (Main.try_call (scan_error e)
              (PlexScan (Some (if bool_decide (Main.media_type r = "tv")
                               then Main.PLEX_TV_LIBRARY cfg
                               else Main.PLEX_MOVIES_LIBRARY cfg)))
              "Failed to trigger Plex scan: "
              (Main.set_uploads
                 (Main.update_where_id i (Main.set_approved (now e))
                    (Main.uploads w))
                 (Main.set_files fs w))))
      end
    end.
Proof.
  intros Hsel Hst. unfold Main.approve_upload, Main.source_path, Main.dest_path.
  rewrite Hsel, Hst. simpl.
  destruct (bool_decide (Main.media_type r = "tv")); simpl;
    destruct (mkdir_error e); try reflexivity;
    destruct (shutil_move _ _ _ _); reflexivity.
Qed.

Lemma main_approve_move_failure (e : env) (i : string) (w : Main.world)
    (r : Main.row) :
  Main.select_by_id i (Main.uploads w) = Some r →
  Main.status r = Pending →
  mkdir_error e ≠ None ∨ Main.files w !! Main.source_path cfg r = None
    ∨ move_error e ≠ None →
  (∃ msg, fst (Main.approve_upload cfg e i w) = Main.JsonError 500 msg)
  ∧ snd (Main.approve_upload cfg e i w) = w.
Proof.
  intros Hsel Hst Hfail.
  rewrite (main_approve_unfold e i w r Hsel Hst).
  destruct (mkdir_error e) as [m|] eqn:Hmk.
  - split; [eexists; reflexivity | reflexivity].
  - destruct Hfail as [Hf | Hf]; [congruence|].
    destruct (shutil_move_fails (move_error e) (Main.source_path cfg r)
                (Main.dest_path cfg r) (Main.files w) Hf) as [msg ->].
    split; [eexists; reflexivity | reflexivity].
Qed.

End MainApprove.

(** ** Queries on the table of routes.py *)

Lemma routes_select_by_id_Some (i : nat) (db : list Routes.row)
    (r : Routes.row) :
  Routes.select_by_id i db = Some r → Routes.id r = i ∧ In r db.
Proof.
  unfold Routes.select_by_id. intros H.
  apply find_some in H as [Hin Hid].
  apply bool_decide_eq_true in Hid. auto.
Qed.

Lemma routes_select_update_same (i : nat) (s : review_status)
    (db : list Routes.row) (r : Routes.row) :
  Routes.select_by_id i db = Some r →
  Routes.select_by_id i (Routes.update_status i s db)
    = Some (Routes.set_status s r).
Proof.
  unfold Routes.select_by_id, Routes.update_status.
  induction db as [|x db IH]; simpl; [discriminate|].
  destruct (bool_decide (Routes.id x = i)) eqn:E.
  - intros [= ->]. simpl. rewrite E. reflexivity.
  - rewrite E. exact IH.
Qed.

Section RoutesApprove.
Variable cfg : Routes.config.

Lemma routes_approve_unfold (e : env) (i : nat) (w : Routes.world)
    (r : Routes.row) :
  Routes.select_by_id i (Routes.uploads w) = Some r →
  Routes.approve cfg e i w =
    match mkdir_error e with
    | Some msg =>
        (Routes.Redirect [("Error moving file: " +:+ msg, "error")] "admin", w)
    | None =>
      match shutil_move (move_error e) (Routes.src_path r)
              (Routes.dest_path r) (Routes.files w) with
      | inl msg =>
        (Routes.Redirect [("Error moving file: " +:+ msg, "error")] "admin", w)
      | inr fs =>
        (Routes.Redirect
           [("Approved: " +:+ Routes.original_filename r, "success")] "admin",
         Routes.emit (PlexScan None)
           (Routes.emit (SendDiscord "Approved" (Routes.original_filename r))
              (Routes.emit
                 (SendEmail (Routes.uploader_email r)
                    ("Upload Approved - " +:+ Routes.APP_NAME cfg))
                 (Routes.set_uploads
                    (Routes.update_status i Approved (Routes.uploads w))
                    (Routes.set_files fs w)))))
      end
    end.
Proof.
  intros Hsel. unfold Routes.approve, Routes.src_path, Routes.dest_path.
  rewrite Hsel.
  destruct (bool_decide (Routes.media_type r = "tv")); simpl;
    destruct (mkdir_error e); try reflexivity;
    destruct (shutil_move _ _ _ _); reflexivity.
Qed.

Lemma routes_approve_move_failure (e : env) (i : nat) (w : Routes.world)
    (r : Routes.row) :
  Routes.select_by_id i (Routes.uploads w) = Some r →
  mkdir_error e ≠ None ∨ Routes.files w !! Routes.src_path r = None
    ∨ move_error e ≠ None →
  (∃ msg, fst (Routes.approve cfg e i w)
          = Routes.Redirect [("Error moving file: " +:+ msg, "error")] "admin")
  ∧ snd (Routes.approve cfg e i w) = w.
Proof.
  intros Hsel Hfail.
  rewrite (routes_approve_unfold e i w r Hsel).
  destruct (mkdir_error e) as [m|] eqn:Hmk.
  - split; [eexists; reflexivity | reflexivity].
  - destruct Hfail as [Hf | Hf]; [congruence|].
    destruct (shutil_move_fails (move_error e) (Routes.src_path r)
                (Routes.dest_path r) (Routes.files w) Hf) as [msg ->].
    split; [eexists; reflexivity | reflexivity].
Qed.

End RoutesApprove.

(** C3. For a Pending upload, when the move of approve fails (the pending
    file is missing, the move raises, or the destination directory cannot be
    created), approve reports the failure (main.py: a JSON error with HTTP
    code 500; routes.py: the flashed error 'Error moving file: ...'), no
    UPDATE is run and nothing else changes: the world after the call is the
    world before it, so the row is still found with status Pending. *)
Theorem approve_move_failure_keeps_pending :
  (∀ (cfg : Main.config) (e : env) (i : string) (w : Main.world)
     (r : Main.row),
     Main.select_by_id i (Main.uploads w) = Some r →
     Main.status r = Pending →
     mkdir_error e ≠ None ∨ Main.files w !! Main.source_path cfg r = None
       ∨ move_error e ≠ None →
     (∃ msg, fst (Main.approve_upload cfg e i w) = Main.JsonError 500 msg)
     ∧ (mkdir_error e = None →
        ∃ msg, fst (Main.approve_upload cfg e i w)
               = Main.JsonError 500 ("Failed to move file: " +:+ msg))
     ∧ snd (Main.approve_upload cfg e i w) = w
     ∧ (∃ r', Main.select_by_id i
                (Main.uploads (snd (Main.approve_upload cfg e i w))) = Some r'
              ∧ Main.status r' = Pending))
  ∧
  (∀ (cfg : Routes.config) (e : env) (i : nat) (w : Routes.world)
     (r : Routes.row),
     Routes.select_by_id i (Routes.uploads w) = Some r →
     Routes.status r = Pending →
     mkdir_error e ≠ None ∨ Routes.files w !! Routes.src_path r = None
       ∨ move_error e ≠ None →
     (∃ msg, fst (Routes.approve cfg e i w)
             = Routes.Redirect [("Error moving file: " +:+ msg, "error")] "admin")
     ∧ snd (Routes.approve cfg e i w) = w
     ∧ (∃ r', Routes.select_by_id i
                (Routes.uploads (snd (Routes.approve cfg e i w))) = Some r'
              ∧ Routes.status r' = Pending)).
Proof.
  split.
  - intros cfg e i w r Hsel Hst Hfail.
    destruct (main_approve_move_failure cfg e i w r Hsel Hst Hfail) as [Hr Hw].
    split; [exact Hr|]. split; [|split; [exact Hw | rewrite Hw; eauto]].
    intros Hmk. rewrite (main_approve_unfold cfg e i w r Hsel Hst), Hmk.
    destruct Hfail as [Hf | Hf]; [congruence|].
    destruct (shutil_move_fails (move_error e) (Main.source_path cfg r)
                (Main.dest_path cfg r) (Main.files w) Hf) as [msg ->].
    eexists; reflexivity.
  - intros cfg e i w r Hsel Hst Hfail.
    destruct (routes_approve_move_failure cfg e i w r Hsel Hfail) as [Hr Hw].
    split; [exact Hr|]. split; [exact Hw|].
    rewrite Hw. eauto.
Qed.

Lemma approve_move_failure_keeps_pending_witness :
  snd (Main.approve_upload Main.default_config
         (quiet "2024-01-01T11:00:00" "" "") "u1" main_world_no_file)
    = main_world_no_file
  ∧ snd (Routes.approve routes_cfg
           (quiet "2024-01-01 11:00:00" "" "") 1 routes_world_no_file)
    = routes_world_no_file.
Proof.
  split.
  - apply (proj1 approve_move_failure_keeps_pending Main.default_config
             (quiet "2024-01-01T11:00:00" "" "") "u1" main_world_no_file
             main_row1).
    + reflexivity.
    + reflexivity.
    + right; left. reflexivity.
  - apply (proj2 approve_move_failure_keeps_pending routes_cfg
             (quiet "2024-01-01 11:00:00" "" "") 1 routes_world_no_file
             routes_row1).
    + reflexivity.
    + reflexivity.
    + right; left. reflexivity.
Defined.

(** ** deny *)

Lemma main_try_call_uploads (f : option string) (c : effect) (p : string)
    (w : Main.world) :
  Main.uploads (Main.try_call f c p w) = Main.uploads w.
Proof. destruct f; reflexivity. Qed.

Lemma main_try_call_files (f : option string) (c : effect) (p : string)
    (w : Main.world) :
  Main.files (Main.try_call f c p w) = Main.files w.
Proof. destruct f; reflexivity. Qed.

Lemma main_try_call_outbox (f : option string) (c : effect) (p : string)
    (w : Main.world) (x : effect) :
  In x (Main.outbox w) → In x (Main.outbox (Main.try_call f c p w)).
Proof.
  intros H. destruct f; simpl; repeat (apply in_or_app; left); exact H.
Qed.

Section MainDeny.
Variable cfg : Main.config.

Lemma main_deny_unfold (e : env) (n : option string) (i : string)
    (w : Main.world) (r : Main.row) :
  Main.select_by_id i (Main.uploads w) = Some r →
  Main.status r = Pending →
  Main.deny_upload cfg e n i w =
    (Main.JsonSuccess "Upload denied and file deleted." None,
     Main.try_call (notify_error e)
       (DenialNotification (Main.uploader_email r) (Main.original_filename r)
          (default "" n))
       "Failed to send denial notification: "
       (Main.set_uploads
          (Main.update_where_id i (Main.set_denied (now e) (default "" n))
             (Main.uploads (main_after_remove cfg e r w)))
          (main_after_remove cfg e r w))).
Proof.
  intros Hsel Hst.
  unfold Main.deny_upload, main_after_remove, Main.source_path.
  rewrite Hsel, Hst. reflexivity.
Qed.

Lemma main_after_remove_uploads (e : env) (r : Main.row) (w : Main.world) :
  Main.uploads (main_after_remove cfg e r w) = Main.uploads w.
Proof.
  unfold main_after_remove.
  destruct (path_exists _ _); [|reflexivity].
  destruct (os_remove _ _ _); reflexivity.
Qed.

Lemma main_deny_commits (e : env) (n : option string) (i : string)
    (w : Main.world) (r : Main.row) :
  Main.select_by_id i (Main.uploads w) = Some r →
  Main.status r = Pending →
  fst (Main.deny_upload cfg e n i w)
    = Main.JsonSuccess "Upload denied and file deleted." None
  ∧ Main.select_by_id i (Main.uploads (snd (Main.deny_upload cfg e n i w)))
    = Some (Main.set_denied (now e) (default "" n) r).
Proof.
  intros Hsel Hst. rewrite (main_deny_unfold e n i w r Hsel Hst).
  split; [reflexivity|]. simpl.
  rewrite main_try_call_uploads. simpl.
  rewrite main_after_remove_uploads.
  apply main_select_update_same; [apply main_set_denied_id | exact Hsel].
Qed.

Lemma main_deny_absent_file (e : env) (n : option string) (i : string)
    (w : Main.world) (r : Main.row) :
  Main.select_by_id i (Main.uploads w) = Some r →
  Main.status r = Pending →
  Main.files w !! Main.source_path cfg r = None →
  Main.files (snd (Main.deny_upload cfg e n i w)) = Main.files w.
Proof.
  intros Hsel Hst Hnone. rewrite (main_deny_unfold e n i w r Hsel Hst).
  simpl. rewrite main_try_call_files. simpl.
  unfold main_after_remove, path_exists.
  rewrite bool_decide_eq_false_2; [reflexivity|].
  rewrite Hnone. intros [x Hx]. discriminate.
Qed.

Lemma main_deny_remove_error (e : env) (n : option string) (i : string)
    (w : Main.world) (r : Main.row) (bytes msg : string) :
  Main.select_by_id i (Main.uploads w) = Some r →
  Main.status r = Pending →
  Main.files w !! Main.source_path cfg r = Some bytes →
  remove_error e = Some msg →
  Main.files (snd (Main.deny_upload cfg e n i w)) = Main.files w
  ∧ In (LogError ("Failed to delete file: " +:+ msg))
       (Main.outbox (snd (Main.deny_upload cfg e n i w))).
Proof.
  intros Hsel Hst Hsome Herr. rewrite (main_deny_unfold e n i w r Hsel Hst).
  simpl.
  assert (main_after_remove cfg e r w
          = Main.emit (LogError ("Failed to delete file: " +:+ msg)) w) as ->.
  { unfold main_after_remove, path_exists, os_remove.
    rewrite bool_decide_eq_true_2 by (rewrite Hsome; eauto).
    rewrite Hsome, Herr. reflexivity. }
  split.
  - rewrite main_try_call_files. reflexivity.
  - apply main_try_call_outbox. simpl. apply in_or_app. right. left. reflexivity.
Qed.

Lemma main_deny_responses (e : env) (n : option string) (i : string)
    (w : Main.world) :
  fst (Main.deny_upload cfg e n i w) = Main.JsonError 404 "Upload not found"
  ∨ fst (Main.deny_upload cfg e n i w)
    = Main.JsonError 400 "Upload already processed"
  ∨ fst (Main.deny_upload cfg e n i w)
    = Main.JsonSuccess "Upload denied and file deleted." None.
Proof.
  unfold Main.deny_upload.
  destruct (Main.select_by_id i (Main.uploads w)) as [r|]; [|left; reflexivity].
  destruct (negb (bool_decide (Main.status r = Pending)));
    [right; left | right; right]; reflexivity.
Qed.

End MainDeny.

Section RoutesDeny.
Variable cfg : Routes.config.

Lemma routes_deny_absent_file (e : env) (i : nat) (w : Routes.world)
    (r : Routes.row) :
  Routes.select_by_id i (Routes.uploads w) = Some r →
  Routes.files w !! Routes.src_path r = None →
  Routes.deny cfg e i w =
    (Routes.Redirect [("Denied: " +:+ Routes.original_filename r, "success")]
       "admin",
     Routes.emit (SendDiscord "Denied" (Routes.original_filename r))
       (Routes.emit
          (SendEmail (Routes.uploader_email r)
             ("Upload Not Approved - " +:+ Routes.APP_NAME cfg))
          (Routes.set_uploads
             (Routes.update_status i Denied (Routes.uploads w)) w))).
Proof.
  intros Hsel Hnone. unfold Routes.deny. rewrite Hsel.
  unfold Routes.src_path in Hnone. unfold path_exists.
  rewrite bool_decide_eq_false_2; [reflexivity|].
  rewrite Hnone. intros [x Hx]. discriminate.
Qed.

End RoutesDeny.

(** C7. Denying a Pending upload whose pending file is absent succeeds and
    the row becomes Denied: main.py answers with the success JSON, stores
    status Denied together with the review date and the notes, and leaves
    the file system as it is; routes.py flashes 'Denied: ...' as a success
    and stores status Denied. *)
Theorem deny_absent_file_succeeds :
  (∀ (cfg : Main.config) (e : env) (n : option string) (i : string)
     (w : Main.world) (r : Main.row),
     Main.select_by_id i (Main.uploads w) = Some r →
     Main.status r = Pending →
     Main.files w !! Main.source_path cfg r = None →
     fst (Main.deny_upload cfg e n i w)
       = Main.JsonSuccess "Upload denied and file deleted." None
     ∧ (∃ r', Main.select_by_id i
                (Main.uploads (snd (Main.deny_upload cfg e n i w))) = Some r'
              ∧ Main.status r' = Denied
              ∧ Main.reviewed_date r' = Some (now e)
              ∧ Main.notes r' = Some (default "" n))
     ∧ Main.files (snd (Main.deny_upload cfg e n i w)) = Main.files w)
  ∧
  (∀ (cfg : Routes.config) (e : env) (i : nat) (w : Routes.world)
     (r : Routes.row),
     Routes.select_by_id i (Routes.uploads w) = Some r →
     Routes.status r = Pending →
     Routes.files w !! Routes.src_path r = None →
     fst (Routes.deny cfg e i w)
       = Routes.Redirect
           [("Denied: " +:+ Routes.original_filename r, "success")] "admin"
     ∧ (∃ r', Routes.select_by_id i
                (Routes.uploads (snd (Routes.deny cfg e i w))) = Some r'
              ∧ Routes.status r' = Denied)
     ∧ Routes.files (snd (Routes.deny cfg e i w)) = Routes.files w).
Proof.
  split.
  - intros cfg e n i w r Hsel Hst Hnone.
    destruct (main_deny_commits cfg e n i w r Hsel Hst) as [Hr Hrow].
    split; [exact Hr|]. split.
    + eexists. split; [exact Hrow|]. repeat split.
    + exact (main_deny_absent_file cfg e n i w r Hsel Hst Hnone).
  - intros cfg e i w r Hsel Hst Hnone.
    rewrite (routes_deny_absent_file cfg e i w r Hsel Hnone). simpl.
    split; [reflexivity|]. split; [|reflexivity].
    eexists. split; [apply routes_select_update_same; exact Hsel|].
    reflexivity.
Qed.

Lemma deny_absent_file_succeeds_witness :
  fst (Main.deny_upload Main.default_config
         (quiet "2024-01-01T11:00:00" "" "") (Some "wrong format") "u1"
         main_world_no_file)
    = Main.JsonSuccess "Upload denied and file deleted." None
  ∧ fst (Routes.deny routes_cfg (quiet "2024-01-01 11:00:00" "" "") 1
           routes_world_no_file)
    = Routes.Redirect [("Denied: Movie.mkv", "success")] "admin".
Proof.
  split.
  - apply (proj1 deny_absent_file_succeeds Main.default_config
             (quiet "2024-01-01T11:00:00" "" "") (Some "wrong format") "u1"
             main_world_no_file main_row1); reflexivity.
  - apply (proj2 deny_absent_file_succeeds routes_cfg
             (quiet "2024-01-01 11:00:00" "" "") 1
             routes_world_no_file routes_row1); reflexivity.
Defined.

(** C9. deny_upload of main.py commits the transition to Denied even when
    removing the pending file raises: the exception is logged and not
    propagated, the call answers with the success JSON, the row reads
    Denied and the file is still in the pending area. Whatever the input,
    deny_upload answers 'not found' (404), 'already processed' (400) or
    success, never a storage failure. *)
Theorem main_deny_commits_despite_remove_error :
  (∀ (cfg : Main.config) (e : env) (n : option string) (i : string)
     (w : Main.world) (r : Main.row) (bytes msg : string),
     Main.select_by_id i (Main.uploads w) = Some r →
     Main.status r = Pending →
     Main.files w !! Main.source_path cfg r = Some bytes →
     remove_error e = Some msg →
     fst (Main.deny_upload cfg e n i w)
       = Main.JsonSuccess "Upload denied and file deleted." None
     ∧ (∃ r', Main.select_by_id i
                (Main.uploads (snd (Main.deny_upload cfg e n i w))) = Some r'
              ∧ Main.status r' = Denied)
     ∧ Main.files (snd (Main.deny_upload cfg e n i w))
         !! Main.source_path cfg r = Some bytes
     ∧ In (LogError ("Failed to delete file: " +:+ msg))
          (Main.outbox (snd (Main.deny_upload cfg e n i w))))
  ∧
  (∀ (cfg : Main.config) (e : env) (n : option string) (i : string)
     (w : Main.world),
     fst (Main.deny_upload cfg e n i w) = Main.JsonError 404 "Upload not found"
     ∨ fst (Main.deny_upload cfg e n i w)
       = Main.JsonError 400 "Upload already processed"
     ∨ fst (Main.deny_upload cfg e n i w)
       = Main.JsonSuccess "Upload denied and file deleted." None).
Proof.
  split.
  - intros cfg e n i w r bytes msg Hsel Hst Hsome Herr.
    destruct (main_deny_commits cfg e n i w r Hsel Hst) as [Hr Hrow].
    destruct (main_deny_remove_error cfg e n i w r bytes msg Hsel Hst Hsome Herr)
      as [Hfs Hlog].
    split; [exact Hr|]. split.
    + eexists. split; [exact Hrow | reflexivity].
    + split; [rewrite Hfs; exact Hsome | exact Hlog].
  - intros cfg e n i w. apply main_deny_responses.
Qed.

Lemma main_deny_commits_despite_remove_error_witness :
  Main.files
    (snd (Main.deny_upload Main.default_config
            (remove_denied "2024-01-01T11:00:00") None "u1"
            main_world_with_file))
    !! "/data/pending/movies/u1_Movie.mkv" = Some "AAA"
  ∧ ∃ r', Main.select_by_id "u1"
            (Main.uploads
               (snd (Main.deny_upload Main.default_config
                       (remove_denied "2024-01-01T11:00:00") None "u1"
                       main_world_with_file))) = Some r'
          ∧ Main.status r' = Denied.
Proof.
  destruct (proj1 main_deny_commits_despite_remove_error Main.default_config
              (remove_denied "2024-01-01T11:00:00") None "u1"
              main_world_with_file main_row1 "AAA"
              "[Errno 13] Permission denied")
    as (_ & Hrow & Hfile & _).
  - reflexivity.
  - reflexivity.
  - reflexivity.
  - reflexivity.
  - split; [exact Hfile | exact Hrow].
Defined.

(** ** approve when the move succeeds *)


Lemma main_approve_ok (cfg : Main.config) (e : env) (i : string)
    (w : Main.world) (r : Main.row) (bytes : string) :
  Main.select_by_id i (Main.uploads w) = Some r →
  Main.status r = Pending →
  mkdir_error e = None → move_error e = None →
  Main.files w !! Main.source_path cfg r = Some bytes →
  fst (Main.approve_upload cfg e i w)
    = Main.JsonSuccess "Upload approved and added to Plex!" None
  ∧ Main.uploads (snd (Main.approve_upload cfg e i w))
    = Main.update_where_id i (Main.set_approved (now e)) (Main.uploads w)
  ∧ Main.files (snd (Main.approve_upload cfg e i w))
    = <[Main.dest_path cfg r := bytes]>
        (delete (Main.source_path cfg r) (Main.files w)).
Proof.
  intros Hsel Hst Hmk Hmv Hsrc.
  rewrite (main_approve_unfold cfg e i w r Hsel Hst), Hmk, Hmv.
  rewrite (shutil_move_ok _ _ bytes _ Hsrc). simpl.
  rewrite !main_try_call_uploads, !main_try_call_files. auto.
Qed.








(** ** routes.py: reviews of an upload that was already reviewed *)

(** C1 (routes.py). The upload with id 1 has been denied. A second
    deny(1) is not refused: it answers with the success flash
    'Denied: Movie.mkv', runs the UPDATE again and sends the e-mail and the
    Discord message a second time. (A second approve(1) of an approved
    upload is stopped only by the pending file being gone: it flashes
    'Error moving file: ...'.) *)
Theorem routes_second_deny_repeats_notifications :
  Routes.select_by_id 1 (Routes.uploads routes_denied)
    = Some (Routes.set_status Denied routes_row1)
  ∧ Routes.outbox routes_denied
    = [SendEmail "admin@x.com" "New Upload - Bozloader";
       SendDiscord "New Upload" "Movie.mkv";
       SendEmail "a@x.com" "Upload Not Approved - Bozloader";
       SendDiscord "Denied" "Movie.mkv"]
  ∧ fst (Routes.deny routes_cfg (quiet "2024-01-01 11:00:01" "" "") 1
           routes_denied)
    = Routes.Redirect [("Denied: Movie.mkv", "success")] "admin"
  ∧ Routes.outbox
      (snd (Routes.deny routes_cfg (quiet "2024-01-01 11:00:01" "" "") 1
              routes_denied))
    = Routes.outbox routes_denied
      ++ [SendEmail "a@x.com" "Upload Not Approved - Bozloader";
          SendDiscord "Denied" "Movie.mkv"]
  ∧ Routes.approve routes_cfg (quiet "2024-01-01 11:00:01" "" "") 1
      routes_approved
    = (Routes.Redirect
         [("Error moving file: [Errno 2] No such file or directory: "
             +:+ "'/data/pending/movies/20240101_100000_Movie.mkv'", "error")]
         "admin",
       routes_approved).
Proof. vm_compute. repeat split; reflexivity. Qed.

(** C2 (routes.py). The upload with id 1 has been approved (its file was
    moved to the published directory). deny(1) then succeeds and the row
    goes from Approved to Denied. *)
Theorem routes_deny_after_approve_flips_status :
  Routes.status <$> Routes.select_by_id 1 (Routes.uploads routes_uploaded)
    = Some Pending
  ∧ Routes.status <$> Routes.select_by_id 1 (Routes.uploads routes_approved)
    = Some Approved
  ∧ fst (Routes.deny routes_cfg (quiet "2024-01-01 12:00:00" "" "") 1
           routes_approved)
    = Routes.Redirect [("Denied: Movie.mkv", "success")] "admin"
  ∧ Routes.status <$>
      Routes.select_by_id 1
        (Routes.uploads
           (snd (Routes.deny routes_cfg (quiet "2024-01-01 12:00:00" "" "") 1
                   routes_approved)))
    = Some Denied.
Proof. vm_compute. repeat split; reflexivity. Qed.

(** C6 (routes.py). The UPDATE of approve and deny writes the status
    column alone: after approve(1) the row is the inserted row with status
    Approved and nothing else changed, no review time being stored; and the
    UPDATE is not restricted to Pending rows, a later deny(1) rewrites the
    status of the Approved row. *)
Theorem routes_update_writes_status_alone :
  Routes.uploads routes_uploaded = [routes_row1]
  ∧ Routes.uploads routes_approved = [Routes.set_status Approved routes_row1]
  ∧ Routes.uploads
      (snd (Routes.deny routes_cfg (quiet "2024-01-01 12:00:00" "" "") 1
              routes_approved))
    = [Routes.set_status Denied routes_row1]
  ∧ (∀ (s : review_status) (r : Routes.row),
       Routes.upload_date (Routes.set_status s r) = Routes.upload_date r
       ∧ Routes.notes (Routes.set_status s r) = Routes.notes r).
Proof.
  split; [vm_compute; reflexivity|].
  split; [vm_compute; reflexivity|].
  split; [vm_compute; reflexivity|].
  intros s r. split; reflexivity.
Qed.

(** C4 (routes.py). upload checks no extension: a file named notes.txt,
    which allowed_file of main.py refuses, is written to the pending
    directory and recorded as a Pending row, and the call reports success. *)
Theorem routes_upload_accepts_txt :
  Main.allowed_file "notes.txt" = false
  ∧ fst (Routes.upload routes_cfg plain_name
           (quiet "2024-01-01 10:00:00" "20240101_100000" "")
           (routes_upload_of "notes.txt" "AAA") Routes.empty_world)
    = Routes.Redirect
        [("Upload successful! " +:+ Routes.dquote +:+ "notes.txt"
            +:+ Routes.dquote +:+ " is pending approval.", "success")] "index"
  ∧ Routes.files
      (snd (Routes.upload routes_cfg plain_name
              (quiet "2024-01-01 10:00:00" "20240101_100000" "")
              (routes_upload_of "notes.txt" "AAA") Routes.empty_world))
      !! "/data/pending/movies/20240101_100000_notes.txt" = Some "AAA"
  ∧ List.map Routes.original_filename
      (Routes.uploads
         (snd (Routes.upload routes_cfg plain_name
                 (quiet "2024-01-01 10:00:00" "20240101_100000" "")
                 (routes_upload_of "notes.txt" "AAA") Routes.empty_world)))
    = ["notes.txt"].
Proof. vm_compute. repeat split; reflexivity. Qed.

(** C5 (routes.py). Two uploads of Movie.mkv that arrive within the same
    second get the same stored name: the two rows share their filename and
    the pending directory holds one file, with the bytes of the second
    upload. *)
Theorem routes_same_second_uploads_collide :
  let w2 :=
    snd (Routes.upload routes_cfg plain_name
           (quiet "2024-01-01 10:00:00" "20240101_100000" "")
           (routes_upload_of "Movie.mkv" "BBB") routes_uploaded) in
  List.map (λ r, (Routes.id r, Routes.filename r)) (Routes.uploads w2)
    = [(1, "20240101_100000_Movie.mkv"); (2, "20240101_100000_Movie.mkv")]
  ∧ map_to_list (Routes.files w2)
    = [("/data/pending/movies/20240101_100000_Movie.mkv", "BBB")]
  ∧ Routes.files routes_uploaded
      !! "/data/pending/movies/20240101_100000_Movie.mkv" = Some "AAA".
Proof. vm_compute. repeat split; reflexivity. Qed.


(** ** main.py: the review guard and the store operations *)

(** approve_upload and deny_upload of main.py refuse a reviewed upload and
    leave the world as it is. *)
Lemma main_reviewed_is_rejected (cfg : Main.config) (e : env)
    (n : option string) (i : string) (w : Main.world) (r : Main.row) :
  Main.select_by_id i (Main.uploads w) = Some r →
  Main.status r ≠ Pending →
  Main.approve_upload cfg e i w
    = (Main.JsonError 400 "Upload already processed", w)
  ∧ Main.deny_upload cfg e n i w
    = (Main.JsonError 400 "Upload already processed", w).
Proof.
  intros Hsel Hst. unfold Main.approve_upload, Main.deny_upload.
  rewrite Hsel, (bool_decide_eq_false_2 _ Hst). split; reflexivity.
Qed.

Section MainStore.
Variable cfg : Main.config.
Variable secure_filename : string → string.

Lemma main_upload_store (e : env) (rq : Main.upload_request) (w : Main.world) :
  main_store_step secure_filename (Main.uploads w)
    (Main.uploads (snd (Main.upload_file cfg secure_filename e rq w))).
Proof.
  unfold Main.upload_file.
  destruct (Main.req_file rq) as [[name bytes]|]; [|constructor].
  destruct (bool_decide (name = "")); [constructor|].
  destruct (negb (Main.allowed_file name)); [constructor|].
  destruct (mkdir_error e); [constructor|].
  destruct (file_save _ _ _ _); [constructor|].
  unfold Main.insert_row. simpl.
  destruct (Main.select_by_id (uuid4 e) (Main.uploads w)) eqn:Hsel;
    simpl; [constructor|].
  rewrite main_try_call_uploads. simpl.
  apply store_insert; [exact Hsel | reflexivity | reflexivity | reflexivity].
Qed.

Lemma main_approve_store (e : env) (i : string) (w : Main.world) :
  main_store_step secure_filename (Main.uploads w)
    (Main.uploads (snd (Main.approve_upload cfg e i w))).
Proof.
  destruct (Main.select_by_id i (Main.uploads w)) as [r|] eqn:Hsel.
  - destruct (decide (Main.status r = Pending)) as [Hst|Hst].
    + rewrite (main_approve_unfold cfg e i w r Hsel Hst).
      destruct (mkdir_error e); [constructor|].
      destruct (shutil_move _ _ _ _); [constructor|]. simpl.
      rewrite !main_try_call_uploads. simpl.
      eapply store_approve; eassumption.
    + rewrite (proj1 (main_reviewed_is_rejected cfg e None i w r Hsel Hst)).
      constructor.
  - unfold Main.approve_upload. rewrite Hsel. constructor.
Qed.

Lemma main_deny_store (e : env) (n : option string) (i : string)
    (w : Main.world) :
  main_store_step secure_filename (Main.uploads w)
    (Main.uploads (snd (Main.deny_upload cfg e n i w))).
Proof.
  destruct (Main.select_by_id i (Main.uploads w)) as [r|] eqn:Hsel.
  - destruct (decide (Main.status r = Pending)) as [Hst|Hst].
    + rewrite (main_deny_unfold cfg e n i w r Hsel Hst). simpl.
      rewrite main_try_call_uploads. simpl.
      rewrite main_after_remove_uploads.
      eapply store_deny; eassumption.
    + rewrite (proj2 (main_reviewed_is_rejected cfg e n i w r Hsel Hst)).
      constructor.
  - unfold Main.deny_upload. rewrite Hsel. constructor.
Qed.

(** Every request is one store operation. *)
Lemma main_handle_store (e : env) (rq : Main.request) (w : Main.world) :
  main_store_step secure_filename (Main.uploads w)
    (Main.uploads (snd (Main.handle cfg secure_filename e rq w))).
Proof.
  destruct rq as [u | a i | a n i]; simpl.
  - apply main_upload_store.
  - destruct a; simpl; [apply main_approve_store | constructor].
  - destruct a; simpl; [apply main_deny_store | constructor].
Qed.

End MainStore.

Lemma main_select_app_Some (i : string) (db : list Main.row)
    (r x : Main.row) :
  Main.select_by_id i db = Some r → Main.select_by_id i (db ++ [x]) = Some r.
Proof.
  unfold Main.select_by_id. induction db as [|y db IH]; simpl; [discriminate|].
  destruct (bool_decide (Main.id y = i)); [tauto | exact IH].
Qed.

Lemma main_select_app_None (i : string) (db : list Main.row) (x : Main.row) :
  Main.select_by_id i db = None →
  Main.select_by_id i (db ++ [x])
    = if bool_decide (Main.id x = i) then Some x else None.
Proof.
  unfold Main.select_by_id. induction db as [|y db IH]; simpl; [reflexivity|].
  destruct (bool_decide (Main.id y = i)); [discriminate | exact IH].
Qed.

(** A store operation keeps every row and changes it by [main_row_step]. *)
Lemma main_store_step_row (sf : string → string) (db db' : list Main.row)
    (i : string) (r : Main.row) :
  main_store_step sf db db' →
  Main.select_by_id i db = Some r →
  ∃ r', Main.select_by_id i db' = Some r' ∧ main_row_step r r'.
Proof.
  intros Hstep Hsel. destruct Hstep as [db | db x Hnew Hx Hd Hname | db j t x Hj Hx
                                         | db j t n x Hj Hx].
  - exists r. split; [exact Hsel | left; reflexivity].
  - exists r. split; [apply main_select_app_Some; exact Hsel | left; reflexivity].
  - destruct (decide (j = i)) as [->|Hne].
    + exists (Main.set_approved t r). split.
      * apply main_select_update_same; [apply main_set_approved_id | exact Hsel].
      * right. split; [congruence|]. exists t. left. reflexivity.
    + exists r. split; [|left; reflexivity].
      rewrite main_select_update_other;
        [exact Hsel | apply main_set_approved_id | exact Hne].
  - destruct (decide (j = i)) as [->|Hne].
    + exists (Main.set_denied t n r). split.
      * apply main_select_update_same; [apply main_set_denied_id | exact Hsel].
      * right. split; [congruence|]. exists t. right. exists n. reflexivity.
    + exists r. split; [|left; reflexivity].
      rewrite main_select_update_other;
        [exact Hsel | apply main_set_denied_id | exact Hne].
Qed.

(** A row that appears was inserted Pending, with no review date. *)
Lemma main_store_step_new (sf : string → string) (db db' : list Main.row)
    (i : string) (r' : Main.row) :
  main_store_step sf db db' →
  Main.select_by_id i db = None →
  Main.select_by_id i db' = Some r' →
  Main.status r' = Pending ∧ Main.reviewed_date r' = None.
Proof.
  intros Hstep Hnone Hsel. destruct Hstep as [db | db x Hnew Hx Hd Hname | db j t x Hj Hx
                                              | db j t n x Hj Hx].
  - congruence.
  - rewrite (main_select_app_None i db x Hnone) in Hsel.
    destruct (bool_decide (Main.id x = i)); [|discriminate].
    injection Hsel as <-. auto.
  - destruct (decide (j = i)) as [->|Hne]; [congruence|].
    rewrite main_select_update_other in Hsel;
      [congruence | apply main_set_approved_id | exact Hne].
  - destruct (decide (j = i)) as [->|Hne]; [congruence|].
    rewrite main_select_update_other in Hsel;
      [congruence | apply main_set_denied_id | exact Hne].
Qed.

(** main.py: once a row is Approved or Denied, no sequence of requests
    changes it: status, review date and notes stay as they are. *)
Lemma main_reviewed_row_is_final (cfg : Main.config)
    (secure_filename : string → string) (l : list (env * Main.request))
    (w : Main.world) (i : string) (r : Main.row) :
  Main.select_by_id i (Main.uploads w) = Some r →
  Main.status r ≠ Pending →
  Main.select_by_id i (Main.uploads (Main.run cfg secure_filename l w))
    = Some r.
Proof.
  revert w. induction l as [|[e rq] l IH]; intros w Hsel Hst; simpl.
  - exact Hsel.
  - apply IH; [|exact Hst].
    destruct (main_store_step_row _ _ _ i r
                (main_handle_store cfg secure_filename e rq w) Hsel)
      as (r' & Hsel' & [-> | [Hp _]]); [exact Hsel' | contradiction].
Qed.

(** ** The listings *)

Section OrderByFacts.
Context {A K : Type} (key : A → K) (leb : K → K → bool).
Hypothesis leb_total : ∀ a b, leb a b = true ∨ leb b a = true.
Hypothesis leb_trans : ∀ a b c, leb a b = true → leb b c = true → leb a c = true.

Lemma insert_desc_perm (x : A) (l : list A) :
  Permutation (insert_desc key leb x l) (x :: l).
Proof.
  induction l as [|y l IH]; simpl; [reflexivity|].
  destruct (leb (key y) (key x)); [reflexivity|].
  rewrite IH. apply perm_swap.
Qed.

Lemma order_by_desc_perm (l : list A) :
  Permutation (order_by_desc key leb l) l.
Proof.
  induction l as [|x l IH]; simpl; [reflexivity|].
  rewrite insert_desc_perm, IH. reflexivity.
Qed.

Lemma insert_desc_sorted (x : A) (l : list A) :
  StronglySorted (desc key leb) l →
  StronglySorted (desc key leb) (insert_desc key leb x l).
Proof.
  induction 1 as [|y l Hs IH Hall]; simpl.
  - constructor; constructor.
  - destruct (leb (key y) (key x)) eqn:E.
    + constructor; [constructor; assumption|].
      constructor; [exact E|].
      eapply Forall_impl; [exact Hall|].
      intros z Hz. unfold desc in *. eauto.
    + constructor; [exact IH|].
      rewrite insert_desc_perm. constructor; [|exact Hall].
      unfold desc. destruct (leb_total (key x) (key y)); congruence.
Qed.

Lemma order_by_desc_sorted (l : list A) :
  StronglySorted (desc key leb) (order_by_desc key leb l).
Proof.
  induction l as [|x l IH]; simpl; [constructor|].
  apply insert_desc_sorted. exact IH.
Qed.

Lemma limit_sorted (n : nat) (l : list A) :
  StronglySorted (desc key leb) l →
  StronglySorted (desc key leb) (limit n l).
Proof.
  unfold limit. intros Hs. revert n.
  induction Hs as [|x l Hs IH Hall]; intros [|n]; simpl; try constructor.
  - apply IH.
  - apply Forall_take. exact Hall.
Qed.

End OrderByFacts.

Lemma string_leb_trans (a b c : string) :
  String.leb a b = true → String.leb b c = true → String.leb a c = true.
Proof.
  intros H1 H2.
  assert (String.le a c) as H.
  { transitivity b; unfold String.le; [rewrite H1 | rewrite H2]; exact I. }
  unfold String.le in H. destruct (String.leb a c); [reflexivity | elim H].
Qed.

Lemma null_leb_total (a b : option string) :
  null_leb a b = true ∨ null_leb b a = true.
Proof.
  destruct a as [x|], b as [y|]; simpl; auto. apply String.leb_total.
Qed.

Lemma null_leb_trans (a b c : option string) :
  null_leb a b = true → null_leb b c = true → null_leb a c = true.
Proof.
  destruct a as [x|], b as [y|], c as [z|]; simpl; try congruence.
  apply string_leb_trans.
Qed.

(** main.py: admin_panel lists exactly the Pending rows, latest upload date
    first, and the first 50 of the other rows sorted latest review date
    first. *)
Lemma main_admin_panel_sorted (w : Main.world) :
  StronglySorted (desc Main.upload_date String.leb) (fst (Main.admin_panel w))
  ∧ Permutation (fst (Main.admin_panel w))
      (filter (λ r, Main.status r = Pending) (Main.uploads w))
  ∧ StronglySorted (desc Main.reviewed_date null_leb)
      (snd (Main.admin_panel w))
  ∧ ∃ l, snd (Main.admin_panel w) = firstn 50 l
         ∧ StronglySorted (desc Main.reviewed_date null_leb) l
         ∧ Permutation l
             (filter (λ r, Main.status r ≠ Pending) (Main.uploads w)).
Proof.
  unfold Main.admin_panel. cbv zeta. cbn [fst snd]. repeat split.
  - apply order_by_desc_sorted; [apply String.leb_total | apply string_leb_trans].
  - apply order_by_desc_perm.
  - apply limit_sorted, order_by_desc_sorted;
      [apply null_leb_total | apply null_leb_trans].
  - eexists. split; [reflexivity|]. split.
    + apply order_by_desc_sorted; [apply null_leb_total | apply null_leb_trans].
    + apply order_by_desc_perm.
Qed.

(** routes.py: admin sorts both listings by upload date. *)
Lemma routes_admin_sorted (w : Routes.world) :
  StronglySorted (desc Routes.upload_date String.leb) (fst (Routes.admin w))
  ∧ Permutation (fst (Routes.admin w))
      (filter (λ r, Routes.status r = Pending) (Routes.uploads w))
  ∧ ∃ l, snd (Routes.admin w) = firstn 20 l
         ∧ StronglySorted (desc Routes.upload_date String.leb) l
         ∧ Permutation l
             (filter (λ r, Routes.status r ≠ Pending) (Routes.uploads w)).
Proof.
  unfold Routes.admin. cbv zeta. cbn [fst snd]. repeat split.
  - apply order_by_desc_sorted; [apply String.leb_total | apply string_leb_trans].
  - apply order_by_desc_perm.
  - eexists. split; [reflexivity|]. split.
    + apply order_by_desc_sorted; [apply String.leb_total | apply string_leb_trans].
    + apply order_by_desc_perm.
Qed.

(** ** main.py: upload *)

(** upload_file of main.py refuses a name whose extension is not allowed
    before it touches the disk or the table. *)
Lemma main_upload_rejects_disallowed (cfg : Main.config)
    (secure_filename : string → string) (e : env)
    (rq : Main.upload_request) (w : Main.world) (name bytes : string) :
  Main.req_file rq = Some (name, bytes) →
  Main.allowed_file name = false →
  ∃ msg, Main.upload_file cfg secure_filename e rq w
         = (Main.JsonError 400 msg, w).
Proof.
  intros Hfile Hext. unfold Main.upload_file. rewrite Hfile, Hext.
  destruct (bool_decide (name = "")); eexists; reflexivity.
Qed.

(** upload_file of main.py inserts a row only after the bytes were saved. *)
Lemma main_upload_insert_needs_save (cfg : Main.config)
    (secure_filename : string → string) (e : env)
    (rq : Main.upload_request) (w : Main.world) :
  Main.uploads (snd (Main.upload_file cfg secure_filename e rq w))
    ≠ Main.uploads w →
  ∃ name bytes,
    Main.req_file rq = Some (name, bytes)
    ∧ Main.allowed_file name = true
    ∧ save_error e = None
    ∧ Main.files (snd (Main.upload_file cfg secure_filename e rq w))
        !! os_path_join
             (if bool_decide (default "movie" (Main.req_media_type rq) = "tv")
              then Main.PENDING_TV_PATH cfg else Main.PENDING_MOVIES_PATH cfg)
             (uuid4 e +:+ "_" +:+ secure_filename name)
      = Some bytes.
Proof.
  unfold Main.upload_file.
  destruct (Main.req_file rq) as [[name bytes]|]; [|intros []; reflexivity].
  destruct (bool_decide (name = "")); [intros []; reflexivity|].
  destruct (Main.allowed_file name) eqn:Hext; simpl;
    [|intros []; reflexivity].
  destruct (mkdir_error e); [intros []; reflexivity|].
  unfold file_save.
  destruct (save_error e); [intros []; reflexivity|].
  destruct (Main.insert_row _ _); simpl; [|intros []; reflexivity].
  intros _. exists name, bytes.
  split; [reflexivity|]. split; [exact Hext|]. split; [reflexivity|].
  rewrite main_try_call_files. simpl. apply lookup_insert_eq.
Qed.

Lemma string_append_length (a b : string) :
  String.length (a +:+ b) = String.length a + String.length b.
Proof. induction a as [|c a IH]; simpl; [reflexivity | rewrite IH; reflexivity]. Qed.

Lemma string_append_cancel_r (a b s : string) :
  a +:+ s = b +:+ s → a = b.
Proof.
  revert b. induction a as [|c a IH]; intros [|d b] H; simpl in H.
  - reflexivity.
  - apply (f_equal String.length) in H.
    rewrite ?string_append_length in H. simpl in H.
    rewrite ?string_append_length in H. lia.
  - apply (f_equal String.length) in H.
    rewrite ?string_append_length in H. simpl in H.
    rewrite ?string_append_length in H. lia.
  - injection H as -> H. f_equal. apply IH. exact H.
Qed.

Lemma main_select_None_notin (i : string) (db : list Main.row) :
  Main.select_by_id i db = None → ¬ In i (List.map Main.id db).
Proof.
  unfold Main.select_by_id. induction db as [|x db IH]; simpl; [tauto|].
  destruct (bool_decide (Main.id x = i)) eqn:E; [discriminate|].
  apply bool_decide_eq_false in E. intros H [Hx | Hin]; [contradiction|].
  exact (IH H Hin).
Qed.

Lemma main_update_ids (i : string) (f : Main.row → Main.row)
    (db : list Main.row) :
  (∀ x, Main.id (f x) = Main.id x) →
  List.map Main.id (Main.update_where_id i f db) = List.map Main.id db.
Proof.
  intros Hf. unfold Main.update_where_id.
  induction db as [|x db IH]; simpl; [reflexivity|].
  rewrite IH. destruct (bool_decide (Main.id x = i)); [rewrite Hf|]; reflexivity.
Qed.

Lemma main_update_Forall (P : Main.row → Prop) (i : string)
    (f : Main.row → Main.row) (db : list Main.row) :
  (∀ x, P x → P (f x)) →
  Forall P db → Forall P (Main.update_where_id i f db).
Proof.
  intros Hf H. unfold Main.update_where_id.
  induction H as [|x db Hx H IH]; simpl; constructor; [|exact IH].
  destruct (bool_decide (Main.id x = i)); auto.
Qed.

(** The keys stay pairwise distinct and every row keeps the stored name
    [upload_file] gave it. *)
Lemma main_store_step_names (sf : string → string) (db db' : list Main.row) :
  main_store_step sf db db' →
  NoDup (List.map Main.id db) ∧ Forall (main_stored_name sf) db →
  NoDup (List.map Main.id db') ∧ Forall (main_stored_name sf) db'.
Proof.
  intros Hstep [Hnd Hall].
  destruct Hstep as [db | db x Hnew Hx Hd Hname | db j t x Hj Hx
                     | db j t n x Hj Hx].
  - auto.
  - split.
    + rewrite List.map_app. simpl. apply NoDup_app. split; [exact Hnd|].
      split; [|apply NoDup_singleton].
      intros y Hy Hy'. apply list_elem_of_In in Hy, Hy'.
      destruct Hy' as [<-|[]].
      exact (main_select_None_notin _ _ Hnew Hy).
    + apply Forall_app. split; [exact Hall|]. constructor; [exact Hname|constructor].
  - split.
    + rewrite main_update_ids; [exact Hnd | apply main_set_approved_id].
    + apply main_update_Forall; [|exact Hall]. intros y Hy. exact Hy.
  - split.
    + rewrite main_update_ids; [exact Hnd | apply main_set_denied_id].
    + apply main_update_Forall; [|exact Hall]. intros y Hy. exact Hy.
Qed.

Lemma main_run_names (cfg : Main.config) (sf : string → string)
    (l : list (env * Main.request)) (w : Main.world) :
  NoDup (List.map Main.id (Main.uploads w))
    ∧ Forall (main_stored_name sf) (Main.uploads w) →
  NoDup (List.map Main.id (Main.uploads (Main.run cfg sf l w)))
    ∧ Forall (main_stored_name sf) (Main.uploads (Main.run cfg sf l w)).
Proof.
  revert w. induction l as [|[e rq] l IH]; intros w H; simpl; [exact H|].
  apply IH. eapply main_store_step_names; [apply main_handle_store | exact H].
Qed.

Lemma NoDup_map_id_inj (db : list Main.row) (r1 r2 : Main.row) :
  NoDup (List.map Main.id db) → In r1 db → In r2 db →
  Main.id r1 = Main.id r2 → r1 = r2.
Proof.
  induction db as [|x db IH]; simpl; [tauto|].
  intros Hnd [<-|H1] [<-|H2] Hid; try reflexivity.
  - apply NoDup_cons in Hnd as [Hx _]. exfalso. apply Hx.
    apply list_elem_of_In. rewrite Hid. apply in_map. exact H2.
  - apply NoDup_cons in Hnd as [Hx _]. exfalso. apply Hx.
    apply list_elem_of_In. rewrite <- Hid. apply in_map. exact H1.
  - apply NoDup_cons in Hnd as [_ Hnd]. auto.
Qed.

(** main.py: in every table the application can reach from the empty one,
    two different rows with the same original name have different stored
    names (the key, a uuid, comes first in the stored name, and the INSERT
    refuses a key that is taken). *)
Lemma main_stored_names_differ (cfg : Main.config) (sf : string → string)
    (l : list (env * Main.request)) (r1 r2 : Main.row) :
  In r1 (Main.uploads (Main.run cfg sf l Main.empty_world)) →
  In r2 (Main.uploads (Main.run cfg sf l Main.empty_world)) →
  r1 ≠ r2 →
  Main.original_filename r1 = Main.original_filename r2 →
  Main.filename r1 ≠ Main.filename r2.
Proof.
  intros H1 H2 Hne Horig Hfn.
  destruct (main_run_names cfg sf l Main.empty_world) as [Hnd Hall].
  { split; [constructor | constructor]. }
  apply Hne, (NoDup_map_id_inj _ r1 r2 Hnd H1 H2).
  rewrite Forall_forall in Hall.
  pose proof (Hall r1 (proj2 (list_elem_of_In _ _) H1)) as Hn1.
  pose proof (Hall r2 (proj2 (list_elem_of_In _ _) H2)) as Hn2.
  unfold main_stored_name in Hn1, Hn2.
  rewrite Hn1, Hn2, Horig in Hfn.
  exact (string_append_cancel_r _ _ _ Hfn).
Qed.

(** ** main.py on concrete requests *)

Example main_allowed_file_samples :
  Main.allowed_file "Movie.mkv" = true
  ∧ Main.allowed_file "CLIP.MP4" = true
  ∧ Main.allowed_file "archive.mkv.txt" = false
  ∧ Main.allowed_file "mkv" = false
  ∧ Main.allowed_file "trailing." = false.
Proof. vm_compute. repeat split; reflexivity. Qed.

(** Uploading Movie.mkv gives a Pending row whose stored name starts with
    the generated id; approving it publishes the file under its original
    name, stores Approved with the review date, and a second approve is
    refused with the world unchanged. *)
Example main_scenario_approve :
  Main.uploads main_uploaded = [main_row1]
  ∧ Main.files main_uploaded !! "/data/pending/movies/u1_Movie.mkv"
    = Some "AAA"
  ∧ Main.uploads main_approved
    = [Main.set_approved "2024-01-01T11:00:00" main_row1]
  ∧ map_to_list (Main.files main_approved)
    = [("/data/plex/movies/Movie.mkv", "AAA")]
  ∧ Main.outbox main_approved
    = [UploadNotification "a@x.com" "Movie.mkv" "movie" "u1";
       PlexScan (Some "Movies");
       ApprovalNotification "a@x.com" "Movie.mkv" "movie"]
  ∧ Main.approve_upload Main.default_config
      (quiet "2024-01-01T11:00:01" "" "") "u1" main_approved
    = (Main.JsonError 400 "Upload already processed", main_approved).
Proof. vm_compute. repeat split; reflexivity. Qed.

(** Uploading a series and denying it with notes removes the pending file
    and stores Denied with the notes. *)
Example main_scenario_deny :
  let w1 := snd (Main.upload_file Main.default_config plain_name
                   (quiet "2024-01-01T10:00:00" "" "u7")
                   (main_upload_of "Show.S01E01.mkv" "CCC" "tv")
                   Main.empty_world) in
  let d := Main.deny_upload Main.default_config
             (quiet "2024-01-01T11:00:00" "" "") (Some "wrong format") "u7" w1 in
  Main.files w1 !! "/data/pending/tv/u7_Show.S01E01.mkv" = Some "CCC"
  ∧ fst d = Main.JsonSuccess "Upload denied and file deleted." None
  ∧ map_to_list (Main.files (snd d)) = []
  ∧ List.map (λ r, (Main.status r, Main.notes r)) (Main.uploads (snd d))
    = [(Denied, Some "wrong format")].
Proof. vm_compute. repeat split; reflexivity. Qed.

(** ** main.py: status and review date go together *)

Lemma main_store_step_dated (sf : string → string) (db db' : list Main.row) :
  main_store_step sf db db' →
  Forall main_reviewed_iff_dated db → Forall main_reviewed_iff_dated db'.
Proof.
  intros Hstep Hall.
  destruct Hstep as [db | db x Hnew Hx Hd Hname | db j t x Hj Hx
                     | db j t n x Hj Hx].
  - exact Hall.
  - apply Forall_app. split; [exact Hall|].
    constructor; [|constructor]. split; auto.
  - apply main_update_Forall; [|exact Hall].
    intros y _. split; discriminate.
  - apply main_update_Forall; [|exact Hall].
    intros y _. split; discriminate.
Qed.

(** main.py: in every table reachable from the empty one, the Pending rows
    are the rows without a review date. *)
Lemma main_run_dated (cfg : Main.config) (sf : string → string)
    (l : list (env * Main.request)) :
  Forall main_reviewed_iff_dated
    (Main.uploads (Main.run cfg sf l Main.empty_world)).
Proof.
  assert (∀ w, Forall main_reviewed_iff_dated (Main.uploads w) →
               Forall main_reviewed_iff_dated
                 (Main.uploads (Main.run cfg sf l w))) as H.
  { induction l as [|[e rq] l IH]; intros w Hw; simpl; [exact Hw|].
    apply IH. eapply main_store_step_dated; [apply main_handle_store | exact Hw]. }
  apply H. constructor.
Qed.

(** ** routes.py: deny when removing the file raises *)

(** Unlike deny_upload of main.py, deny of routes.py gives up when
    os.remove raises: it flashes the error and the row stays as it was. *)
Lemma routes_deny_remove_error (cfg : Routes.config) (e : env) (i : nat)
    (w : Routes.world) (r : Routes.row) (bytes msg : string) :
  Routes.select_by_id i (Routes.uploads w) = Some r →
  Routes.files w !! Routes.src_path r = Some bytes →
  remove_error e = Some msg →
  Routes.deny cfg e i w
    = (Routes.Redirect [("Error removing file: " +:+ msg, "error")] "admin", w).
Proof.
  intros Hsel Hsome Herr. unfold Routes.deny. rewrite Hsel.
  unfold Routes.src_path in Hsome. unfold path_exists, os_remove.
  rewrite bool_decide_eq_true_2 by (rewrite Hsome; eauto).
  rewrite Hsome, Herr. reflexivity.
Qed.

(** * Further properties of the code *)

(** ** allowed_file *)








(** ** The admin session *)


Lemma auth_state_eta (s : Auth.state) :
  {| Auth.admins := Auth.admins s;
     Auth.admin_logged_in := Auth.admin_logged_in s |} = s.
Proof. destruct s. reflexivity. Qed.

(** X2. For a visitor who is not logged in, admin_login opens the session
    exactly when the request is a POST and the hash of the submitted
    password is the hash stored in admin row 1; in every other case the
    admin table and the session are left as they were. *)
Theorem login_opens_session_iff_hash_matches (sha256 : string → string)
    (panel : string) (e : env) (m : Auth.method) (pw : option string)
    (s : Auth.state) :
  Auth.admin_logged_in s = false →
  (Auth.admin_logged_in (snd (Auth.admin_login sha256 panel e m pw s)) = true
   ↔ m = Auth.POST
     ∧ ∃ a, Auth.select_admin (Auth.admins s) = Some a
            ∧ Auth.password_hash a = sha256 (default "" pw))
  ∧ (Auth.admin_logged_in (snd (Auth.admin_login sha256 panel e m pw s)) = false
     → snd (Auth.admin_login sha256 panel e m pw s) = s).
Proof.
  intros Hout. unfold Auth.admin_login, Auth.hash_password. rewrite Hout.
  destruct m.
  - simpl. split; [|reflexivity].
    split; [congruence | intros [? _]; discriminate].
  - destruct (Auth.select_admin (Auth.admins s)) as [a|] eqn:Hsel.
    + destruct (bool_decide (Auth.password_hash a = sha256 (default "" pw)))
        eqn:Hh.
      * apply bool_decide_eq_true in Hh.
        destruct (Auth.must_change_password a); simpl;
          (split; [split; eauto | discriminate]).
      * apply bool_decide_eq_false in Hh. simpl. split; [|reflexivity].
        split; [congruence|]. intros [_ (a' & [= <-] & H)]. contradiction.
    + simpl. split; [|reflexivity].
      split; [congruence|]. intros [_ (a' & H & _)]. discriminate.
Qed.

Lemma login_opens_session_iff_hash_matches_witness :
  snd (Auth.admin_login sample_hash "admin_panel"
         (quiet "2024-01-01T09:30:00" "" "") Auth.POST (Some "letmein")
         fresh_auth) = fresh_auth.
Proof.
  apply (proj2 (login_opens_session_iff_hash_matches sample_hash "admin_panel"
                  (quiet "2024-01-01T09:30:00" "" "") Auth.POST
                  (Some "letmein") fresh_auth eq_refl)).
  reflexivity.
Defined.

(** X3. admin_change_password can never answer 'Please choose a different
    password': the test for the password 'admin' comes after the test for
    fewer than 6 characters, which 'admin' (5 characters) already fails. A
    logged-in admin who submits 'admin' is told that the password must be at
    least 6 characters, and the table is not changed. *)
Theorem change_password_never_asks_for_a_different_one :
  (∀ (sha256 : string → string) (panel : string) (m : Auth.method)
     (n c : option string) (s : Auth.state),
     ¬ In ("Please choose a different password", "error")
         (Auth.flashes_of
            (fst (Auth.admin_change_password sha256 panel m n c s))))
  ∧ (∀ (sha256 : string → string) (panel : string) (c : option string)
       (s : Auth.state),
       Auth.admin_logged_in s = true →
       ∃ force,
         Auth.admin_change_password sha256 panel Auth.POST (Some "admin") c s
         = (Auth.RenderChangePassword
              [("Password must be at least 6 characters", "error")] force, s)).
Proof.
  split.
  - intros sha256 panel m n c s. unfold Auth.admin_change_password.
    destruct (negb (Auth.admin_logged_in s)); [simpl; tauto|].
    destruct m; [simpl; tauto|].
    destruct (String.length (default "" n) <? 6)%nat eqn:Hlen.
    { simpl. intros [[=]|[]]. }
    destruct (negb (bool_decide (default "" n = default "" c))).
    { simpl. intros [[=]|[]]. }
    destruct (bool_decide (default "" n = "admin")) eqn:Hadm.
    + apply bool_decide_eq_true in Hadm. rewrite Hadm in Hlen. discriminate.
    + simpl. intros [[=]|[]].
  - intros sha256 panel c s Hin. unfold Auth.admin_change_password.
    rewrite Hin. simpl. eexists. reflexivity.
Qed.

Lemma change_password_never_asks_for_a_different_one_witness :
  ∃ force,
    Auth.admin_change_password sample_hash "admin_panel" Auth.POST
      (Some "admin") (Some "admin") default_login_auth
    = (Auth.RenderChangePassword
         [("Password must be at least 6 characters", "error")] force,
       default_login_auth).
Proof.
  apply (proj2 change_password_never_asks_for_a_different_one sample_hash
           "admin_panel" (Some "admin") default_login_auth).
  reflexivity.
Defined.





(** ** main.py: the session and the review routes together *)

Lemma main_upload_appends (cfg : Main.config) (sf : string → string)
    (e : env) (rq : Main.upload_request) (w : Main.world) :
  ∃ added,
    Main.uploads (snd (Main.upload_file cfg sf e rq w))
      = Main.uploads w ++ added
    ∧ Forall (λ r, Main.status r = Pending) added.
Proof.
  unfold Main.upload_file.
  assert (∃ added, Main.uploads w = Main.uploads w ++ added
                   ∧ Forall (λ r, Main.status r = Pending) added) as Hnil
    by (exists []; split; [symmetry; apply app_nil_r | constructor]).
  destruct (Main.req_file rq) as [[name bytes]|]; [|exact Hnil].
  destruct (bool_decide (name = "")); [exact Hnil|].
  destruct (negb (Main.allowed_file name)); [exact Hnil|].
  destruct (mkdir_error e); [exact Hnil|].
  destruct (file_save _ _ _ _); [exact Hnil|].
  unfold Main.insert_row. simpl.
  destruct (Main.select_by_id (uuid4 e) (Main.uploads w)); simpl; [exact Hnil|].
  rewrite main_try_call_uploads. simpl.
  eexists. split; [reflexivity|]. constructor; [reflexivity | constructor].
Qed.



Lemma app_closed_session_step (cfg : Main.config) (sf sha256 : string → string)
    (e : env) (rq : App.request) (a : App.app) :
  Auth.admin_logged_in (App.auth a) = false →
  App.opens_session sha256 (App.auth a) rq = false →
  App.auth (snd (App.handle cfg sf sha256 e rq a)) = App.auth a
  ∧ ∃ added,
      Main.uploads (App.world (snd (App.handle cfg sf sha256 e rq a)))
        = Main.uploads (App.world a) ++ added
      ∧ Forall (λ r, Main.status r = Pending) added.
Proof.
  intros Hout Hno.
  assert (∃ added, Main.uploads (App.world a)
                   = Main.uploads (App.world a) ++ added
                   ∧ Forall (λ r, Main.status r = Pending) added) as Hnil
    by (exists []; split; [symmetry; apply app_nil_r | constructor]).
  destruct rq as [u | i | n i | m p | m n c |]; simpl.
  - unfold App.workflow. simpl.
    destruct (Main.upload_file cfg sf e u (App.world a)) as [resp w'] eqn:Hu.
    simpl. split; [reflexivity|].
    pose proof (main_upload_appends cfg sf e u (App.world a)) as H.
    rewrite Hu in H. exact H.
  - unfold App.workflow. rewrite Hout. simpl. auto.
  - unfold App.workflow. rewrite Hout. simpl. auto.
  - unfold App.session.
    destruct (Auth.admin_login sha256 "admin_panel" e m p (App.auth a))
      as [resp s'] eqn:Hl. simpl. split; [|exact Hnil].
    destruct (login_opens_session_iff_hash_matches sha256 "admin_panel" e m p
                (App.auth a) Hout) as [Hiff Hsame].
    rewrite Hl in Hiff, Hsame. simpl in Hiff, Hsame.
    apply Hsame. destruct (Auth.admin_logged_in s') eqn:Hs; [|reflexivity].
    exfalso. destruct (proj1 Hiff eq_refl) as [-> (x & Hx & Hh)].
    simpl in Hno. rewrite Hx in Hno.
    apply bool_decide_eq_false in Hno. contradiction.
  - unfold App.session, Auth.admin_change_password. rewrite Hout. simpl. auto.
  - unfold App.session, Auth.admin_logout. simpl. split; [|exact Hnil].
    rewrite <- Hout. apply auth_state_eta.
Qed.

(** X7. Without the password there is no review. Start with the session
    closed and serve any sequence of requests none of which is a login POST
    carrying a password with the stored hash: the session stays closed, the
    admin table is unchanged, and the uploads table only grows by Pending
    rows, so no row is approved, denied or otherwise rewritten. *)
Theorem no_review_without_login (cfg : Main.config)
    (sf sha256 : string → string) (l : list (env * App.request))
    (a : App.app) :
  Auth.admin_logged_in (App.auth a) = false →
  Forall (λ x, App.opens_session sha256 (App.auth a) (snd x) = false) l →
  App.auth (App.run cfg sf sha256 l a) = App.auth a
  ∧ ∃ added,
      Main.uploads (App.world (App.run cfg sf sha256 l a))
        = Main.uploads (App.world a) ++ added
      ∧ Forall (λ r, Main.status r = Pending) added.
Proof.
  revert a. induction l as [|[e rq] l IH]; intros a Hout Hall; simpl.
  - split; [reflexivity|]. exists []. split; [symmetry; apply app_nil_r | constructor].
  - apply Forall_cons in Hall as [Hrq Hall]. simpl in Hrq.
    destruct (app_closed_session_step cfg sf sha256 e rq a Hout Hrq)
      as [Hauth (add1 & Hu1 & Hp1)].
    destruct (IH (snd (App.handle cfg sf sha256 e rq a))) as [Hauth' (add2 & Hu2 & Hp2)].
    + rewrite Hauth. exact Hout.
    + rewrite Hauth. exact Hall.
    + split; [congruence|]. exists (add1 ++ add2). split.
      * rewrite Hu2, Hu1, app_assoc. reflexivity.
      * apply Forall_app. auto.
Qed.

Lemma no_review_without_login_witness :
  App.auth
    (App.run Main.default_config plain_name sample_hash
       [(quiet "2024-01-01T09:30:00" "" "",
         App.Login Auth.POST (Some "guess"));
        (quiet "2024-01-01T11:00:00" "" "", App.Approve "u1");
        (quiet "2024-01-01T11:00:01" "" "", App.Deny None "u1")]
       {| App.world := main_world_with_file; App.auth := fresh_auth |})
  = fresh_auth.
Proof.
  refine (proj1 (no_review_without_login Main.default_config plain_name
                   sample_hash _
                   {| App.world := main_world_with_file;
                      App.auth := fresh_auth |} _ _)).
  - reflexivity.
  - repeat constructor.
Defined.

(** ** main.py: an upload through its life *)

Lemma main_upload_success (cfg : Main.config) (sf : string → string)
    (e : env) (rq : Main.upload_request) (w : Main.world)
    (name bytes msg : string) (i : option string) :
  Main.req_file rq = Some (name, bytes) →
  fst (Main.upload_file cfg sf e rq w) = Main.JsonSuccess msg i →
  i = Some (uuid4 e)
  ∧ Main.allowed_file name = true
  ∧ Main.select_by_id (uuid4 e) (Main.uploads w) = None
  ∧ Main.uploads (snd (Main.upload_file cfg sf e rq w))
    = Main.uploads w ++ [uploaded_row sf e rq name bytes]
  ∧ Main.files (snd (Main.upload_file cfg sf e rq w))
    = <[Main.source_path cfg (uploaded_row sf e rq name bytes) := bytes]>
        (Main.files w).
Proof.
  intros Hfile. unfold Main.upload_file. rewrite Hfile.
  destruct (bool_decide (name = "")); [discriminate|].
  destruct (Main.allowed_file name); simpl; [|discriminate].
  destruct (mkdir_error e); [discriminate|].
  unfold file_save. destruct (save_error e); [discriminate|].
  unfold Main.insert_row. simpl.
  destruct (Main.select_by_id (uuid4 e) (Main.uploads w)); simpl; [discriminate|].
  intros [= <- <-].
  rewrite main_try_call_uploads, main_try_call_files. simpl.
  repeat split.
Qed.

(** X8. Round trip of an upload through the status view. When upload_file
    answers with success, it returns the generated id, and upload_status of
    that id shows the submitted file name, the media type as sent (or
    'movie' when none was sent), the upload time, status Pending and no
    review date. *)
Theorem upload_then_status (cfg : Main.config) (sf : string → string)
    (e : env) (rq : Main.upload_request) (w : Main.world)
    (name bytes msg : string) (i : option string) :
  Main.req_file rq = Some (name, bytes) →
  fst (Main.upload_file cfg sf e rq w) = Main.JsonSuccess msg i →
  i = Some (uuid4 e)
  ∧ upload_status (uuid4 e) (snd (Main.upload_file cfg sf e rq w))
    = inr {| json_id := uuid4 e;
             json_filename := name;
             json_status := Pending;
             json_media_type := default "movie" (Main.req_media_type rq);
             json_upload_date := now e;
             json_reviewed_date := None |}.
Proof.
  intros Hfile Hok.
  destruct (main_upload_success cfg sf e rq w name bytes msg i Hfile Hok)
    as (Hi & _ & Hnew & Hu & _).
  split; [exact Hi|]. unfold upload_status.
  rewrite Hu, (main_select_app_None _ _ _ Hnew). simpl.
  rewrite bool_decide_eq_true_2 by reflexivity. reflexivity.
Qed.

Lemma upload_then_status_witness :
  upload_status "u1" main_uploaded
  = inr {| json_id := "u1"; json_filename := "Movie.mkv";
           json_status := Pending; json_media_type := "movie";
           json_upload_date := "2024-01-01T10:00:00";
           json_reviewed_date := None |}.
Proof.
  refine (proj2 (upload_then_status Main.default_config plain_name
                   (quiet "2024-01-01T10:00:00" "" "u1")
                   (main_upload_of "Movie.mkv" "AAA" "movie") Main.empty_world
                   "Movie.mkv" "AAA" _ _ _ _)); reflexivity.
Defined.

Lemma main_uploaded_row_found (cfg : Main.config) (sf : string → string)
    (e : env) (rq : Main.upload_request) (w : Main.world)
    (name bytes msg : string) (i : option string) :
  Main.req_file rq = Some (name, bytes) →
  fst (Main.upload_file cfg sf e rq w) = Main.JsonSuccess msg i →
  Main.select_by_id (uuid4 e)
    (Main.uploads (snd (Main.upload_file cfg sf e rq w)))
    = Some (uploaded_row sf e rq name bytes)
  ∧ Main.files (snd (Main.upload_file cfg sf e rq w))
      !! Main.source_path cfg (uploaded_row sf e rq name bytes) = Some bytes.
Proof.
  intros Hfile Hok.
  destruct (main_upload_success cfg sf e rq w name bytes msg i Hfile Hok)
    as (_ & _ & Hnew & Hu & Hf).
  rewrite Hu, Hf, (main_select_app_None _ _ _ Hnew). simpl.
  rewrite bool_decide_eq_true_2 by reflexivity.
  split; [reflexivity | apply lookup_insert_eq].
Qed.

(** X9. An accepted upload that is then approved, with no I/O failure, is
    published: approve_upload answers with success, the row reads Approved
    with the time of the approval, and the uploaded bytes are at the
    original file name under the TV library directory when the media type
    is exactly 'tv' and under the movies directory for every other media
    type; the Plex scan is requested for the matching library. *)
Theorem upload_then_approve_publishes (cfg : Main.config)
    (sf : string → string) (e1 e2 : env) (rq : Main.upload_request)
    (w : Main.world) (name bytes msg : string) (i : option string) :
  Main.req_file rq = Some (name, bytes) →
  fst (Main.upload_file cfg sf e1 rq w) = Main.JsonSuccess msg i →
  mkdir_error e2 = None → move_error e2 = None →
  let mt := default "movie" (Main.req_media_type rq) in
  let tv := bool_decide (mt = "tv") in
  let a := Main.approve_upload cfg e2 (uuid4 e1)
             (snd (Main.upload_file cfg sf e1 rq w)) in
  fst a = Main.JsonSuccess "Upload approved and added to Plex!" None
  ∧ Main.select_by_id (uuid4 e1) (Main.uploads (snd a))
    = Some (Main.set_approved (now e2) (uploaded_row sf e1 rq name bytes))
  ∧ Main.files (snd a)
      !! os_path_join
           (if tv then Main.PLEX_TV_PATH cfg else Main.PLEX_MOVIES_PATH cfg)
           name
    = Some bytes
  ∧ In (PlexScan (Some (if tv then Main.PLEX_TV_LIBRARY cfg
                        else Main.PLEX_MOVIES_LIBRARY cfg)))
       (Main.outbox (snd a)).
Proof.
  intros Hfile Hok Hmk Hmv mt tv a.
  destruct (main_uploaded_row_found cfg sf e1 rq w name bytes msg i Hfile Hok)
    as [Hsel Hsrc].
  destruct (main_approve_ok cfg e2 (uuid4 e1) _ _ bytes Hsel eq_refl Hmk Hmv Hsrc)
    as (Hr & Hu & Hf).
  fold a in Hr, Hu, Hf.
  split; [exact Hr|]. split.
  { rewrite Hu. apply main_select_update_same;
      [apply main_set_approved_id | exact Hsel]. }
  split.
  { rewrite Hf. apply lookup_insert_eq. }
  unfold a. rewrite (main_approve_unfold cfg e2 _ _ _ Hsel eq_refl), Hmk, Hmv.
  rewrite (shutil_move_ok _ _ bytes _ Hsrc). simpl.
  apply main_try_call_outbox.
  destruct (scan_error e2); simpl; rewrite ?in_app_iff; simpl; auto.
Qed.

Lemma upload_then_approve_publishes_witness :
  Main.files
    (snd (Main.approve_upload Main.default_config
            (quiet "2024-01-01T11:00:00" "" "") "u9"
            (snd (Main.upload_file Main.default_config plain_name
                    (quiet "2024-01-01T10:00:00" "" "u9")
                    (main_upload_of "Clip.mp4" "DDD" "series")
                    Main.empty_world))))
    !! "/data/plex/movies/Clip.mp4" = Some "DDD".
Proof.
  refine (proj1 (proj2 (proj2
            (upload_then_approve_publishes Main.default_config plain_name
               (quiet "2024-01-01T10:00:00" "" "u9")
               (quiet "2024-01-01T11:00:00" "" "")
               (main_upload_of "Clip.mp4" "DDD" "series") Main.empty_world
               "Clip.mp4" "DDD" _ _ _ _ _ _)))); reflexivity.
Defined.

(** X10. The published path is built from the file name as the client sent
    it. When that name is an absolute path, approve_upload moves the file
    to that very path, outside the library directory. *)
Theorem approve_publishes_at_absolute_name (cfg : Main.config)
    (sf : string → string) (e1 e2 : env) (rq : Main.upload_request)
    (w : Main.world) (name bytes msg : string) (i : option string) :
  Main.req_file rq = Some (name, bytes) →
  startswith "/" name = true →
  fst (Main.upload_file cfg sf e1 rq w) = Main.JsonSuccess msg i →
  mkdir_error e2 = None → move_error e2 = None →
  Main.files
    (snd (Main.approve_upload cfg e2 (uuid4 e1)
            (snd (Main.upload_file cfg sf e1 rq w))))
    !! name = Some bytes.
Proof.
  intros Hfile Habs Hok Hmk Hmv.
  destruct (upload_then_approve_publishes cfg sf e1 e2 rq w name bytes msg i
              Hfile Hok Hmk Hmv) as (_ & _ & H & _).
  unfold os_path_join in H. rewrite Habs in H. exact H.
Qed.

Lemma approve_publishes_at_absolute_name_witness :
  Main.files
    (snd (Main.approve_upload Main.default_config
            (quiet "2024-01-01T11:00:00" "" "") "u9"
            (snd (Main.upload_file Main.default_config sample_secure_filename
                    (quiet "2024-01-01T10:00:00" "" "u9")
                    (main_upload_of "/tmp/evil.mkv" "DDD" "movie")
                    Main.empty_world))))
    !! "/tmp/evil.mkv" = Some "DDD".
Proof.
  refine (approve_publishes_at_absolute_name Main.default_config
            sample_secure_filename (quiet "2024-01-01T10:00:00" "" "u9")
            (quiet "2024-01-01T11:00:00" "" "")
            (main_upload_of "/tmp/evil.mkv" "DDD" "movie") Main.empty_world
            "/tmp/evil.mkv" "DDD" _ _ _ _ _ _ _); reflexivity.
Defined.



(** ** The listing of one uploader *)

(** X12. my_uploads shows a visitor exactly the rows recorded under the
    identity of the request, each once, latest upload date first. In
    main.py the identity is the Cloudflare header, else the X-User-Email
    header, else 'anonymous@example.com'; in routes.py it is the Cloudflare
    header, else 'anonymous@unknown.com'. *)
Theorem my_uploads_lists_own_rows :
  (∀ (h : Main.headers) (w : Main.world),
     Permutation (Main.my_uploads h w)
       (filter (λ r, Main.uploader_email r = Main.get_user_email h)
          (Main.uploads w))
     ∧ Forall (λ r, Main.uploader_email r = Main.get_user_email h)
         (Main.my_uploads h w)
     ∧ StronglySorted (desc Main.upload_date String.leb)
         (Main.my_uploads h w))
  ∧ (∀ (cf : option string) (w : Routes.world),
       Permutation (routes_my_uploads cf w)
         (filter (λ r, Routes.uploader_email r = Routes.get_user_email cf)
            (Routes.uploads w))
       ∧ Forall (λ r, Routes.uploader_email r = Routes.get_user_email cf)
           (routes_my_uploads cf w)
       ∧ StronglySorted (desc Routes.upload_date String.leb)
           (routes_my_uploads cf w)).
Proof.
  split.
  - intros h w. unfold Main.my_uploads.
    assert (Permutation
              (order_by_desc Main.upload_date String.leb
                 (filter (λ r, Main.uploader_email r = Main.get_user_email h)
                    (Main.uploads w)))
              (filter (λ r, Main.uploader_email r = Main.get_user_email h)
                 (Main.uploads w))) as Hp by apply order_by_desc_perm.
    split; [exact Hp|]. split.
    + rewrite Hp. apply Forall_forall. intros r Hr.
      apply list_elem_of_filter in Hr. tauto.
    + apply order_by_desc_sorted;
        [apply String.leb_total | apply string_leb_trans].
  - intros cf w. unfold routes_my_uploads.
    assert (Permutation
              (order_by_desc Routes.upload_date String.leb
                 (filter (λ r, Routes.uploader_email r = Routes.get_user_email cf)
                    (Routes.uploads w)))
              (filter (λ r, Routes.uploader_email r = Routes.get_user_email cf)
                 (Routes.uploads w))) as Hp by apply order_by_desc_perm.
    split; [exact Hp|]. split.
    + rewrite Hp. apply Forall_forall. intros r Hr.
      apply list_elem_of_filter in Hr. tauto.
    + apply order_by_desc_sorted;
        [apply String.leb_total | apply string_leb_trans].
Qed.

(** ** Witnesses of the invariants of main.py and routes.py *)

Lemma main_reviewed_row_is_final_witness :
  Main.select_by_id "u1"
    (Main.uploads
       (Main.run Main.default_config plain_name
          [(quiet "2024-01-01T12:00:00" "" "",
            Main.ReqDeny true (Some "late") "u1");
           (quiet "2024-01-01T12:00:01" "" "", Main.ReqApprove true "u1")]
          main_approved))
  = Some (Main.set_approved "2024-01-01T11:00:00" main_row1).
Proof.
  apply (main_reviewed_row_is_final Main.default_config plain_name).
  - reflexivity.
  - discriminate.
Defined.

Lemma main_stored_names_differ_witness :
  Main.filename main_row1
  ≠ Main.filename
      {| Main.id := "u2"; Main.filename := "u2_Movie.mkv";
         Main.original_filename := "Movie.mkv"; Main.media_type := "movie";
         Main.uploader_email := "a@x.com";
         Main.upload_date := "2024-01-01T10:05:00";
         Main.status := Pending; Main.reviewed_date := None;
         Main.file_size := 3; Main.notes := None |}.
Proof.
  apply (main_stored_names_differ Main.default_config plain_name
           main_two_uploads).
  - left. reflexivity.
  - right. left. reflexivity.
  - discriminate.
  - reflexivity.
Defined.

Lemma main_upload_insert_needs_save_witness :
  ∃ name bytes,
    Main.req_file (main_upload_of "Movie.mkv" "AAA" "movie")
      = Some (name, bytes)
    ∧ Main.allowed_file name = true
    ∧ save_error (quiet "2024-01-01T10:00:00" "" "u1") = None
    ∧ Main.files main_uploaded
        !! os_path_join
             (if bool_decide
                   (default "movie"
                      (Main.req_media_type
                         (main_upload_of "Movie.mkv" "AAA" "movie")) = "tv")
              then Main.PENDING_TV_PATH Main.default_config
              else Main.PENDING_MOVIES_PATH Main.default_config)
             (uuid4 (quiet "2024-01-01T10:00:00" "" "u1") +:+ "_"
                +:+ plain_name name)
      = Some bytes.
Proof.
  apply (main_upload_insert_needs_save Main.default_config plain_name
           (quiet "2024-01-01T10:00:00" "" "u1")
           (main_upload_of "Movie.mkv" "AAA" "movie") Main.empty_world).
  discriminate.
Defined.

Lemma routes_deny_remove_error_witness :
  Routes.deny routes_cfg (noisy "2024-01-01 11:00:00") 1 routes_world_with_file
  = (Routes.Redirect
       [("Error removing file: [Errno 13] Permission denied", "error")]
       "admin",
     routes_world_with_file).
Proof.
  apply (routes_deny_remove_error routes_cfg (noisy "2024-01-01 11:00:00") 1
           routes_world_with_file routes_row1 "AAA"
           "[Errno 13] Permission denied"); reflexivity.
Defined.

(** ** plex_integration.py *)

Lemma plex_first_titled_iff (name : string) (dirs : list Plex.directory)
    (k : option string) :
  (∃ pre d post,
     dirs = pre ++ d :: post
     ∧ Forall (λ x, Plex.title x ≠ Some name) pre
     ∧ Plex.title d = Some name ∧ Plex.key d = k)
  → Plex.first_titled name dirs = k.
Proof.
  intros (pre & d & post & -> & Hpre & Ht & Hk).
  induction Hpre as [|x pre Hx _ IH]; simpl.
  - rewrite bool_decide_eq_true_2 by exact Ht. exact Hk.
  - rewrite bool_decide_eq_false_2 by exact Hx. exact IH.
Qed.

Lemma plex_first_titled_Some (name : string) (dirs : list Plex.directory)
    (k : string) :
  Plex.first_titled name dirs = Some k →
  ∃ pre d post,
    dirs = pre ++ d :: post
    ∧ Forall (λ x, Plex.title x ≠ Some name) pre
    ∧ Plex.title d = Some name ∧ Plex.key d = Some k.
Proof.
  induction dirs as [|x dirs IH]; simpl; [discriminate|].
  destruct (bool_decide (Plex.title x = Some name)) eqn:E.
  - apply bool_decide_eq_true in E. intros Hk.
    exists [], x, dirs. repeat split; [constructor | exact E | exact Hk].
  - apply bool_decide_eq_false in E. intros H.
    destruct (IH H) as (pre & d & post & -> & Hpre & Ht & Hk).
    exists (x :: pre), d, post. repeat split; [constructor | |]; assumption.
Qed.

(** X19. trigger_plex_scan reports success exactly when a token is
    configured, the section listing is received, the first directory of the
    listing whose title is the library name has a non-empty key, and the
    refresh request does not raise; a later directory with the same title is
    never used. It then has requested the listing and the refresh of that
    key, in this order. With no token configured it requests nothing. *)
Theorem trigger_plex_scan_succeeds_iff (cfg : Plex.config)
    (srv : Plex.server) (name : string) :
  (fst (Plex.trigger_plex_scan cfg srv name) = true
   ↔ Plex.PLEX_TOKEN cfg ≠ ""
     ∧ Plex.refresh_error srv = None
     ∧ ∃ pre d post k,
         Plex.sections_reply srv = inr (pre ++ d :: post)
         ∧ Forall (λ x, Plex.title x ≠ Some name) pre
         ∧ Plex.title d = Some name ∧ Plex.key d = Some k ∧ k ≠ "")
  ∧ (∀ pre d post k,
       fst (Plex.trigger_plex_scan cfg srv name) = true →
       Plex.sections_reply srv = inr (pre ++ d :: post) →
       Forall (λ x, Plex.title x ≠ Some name) pre →
       Plex.title d = Some name → Plex.key d = Some k →
       snd (Plex.trigger_plex_scan cfg srv name)
       = [Plex.sections_url cfg; Plex.refresh_url cfg k])
  ∧ (Plex.PLEX_TOKEN cfg = "" →
     Plex.trigger_plex_scan cfg srv name = (false, [])).
Proof.
  unfold Plex.trigger_plex_scan, Plex.get_library_section_id, Plex.PLEX_ENABLED.
  destruct (decide (Plex.PLEX_TOKEN cfg = "")) as [Htok|Htok].
  - rewrite (bool_decide_eq_true_2 _ Htok). simpl.
    split; [split; [discriminate | intros [H _]; contradiction]|].
    split; [discriminate | reflexivity].
  - rewrite (bool_decide_eq_false_2 _ Htok). simpl.
    split; [|split; [|contradiction]].
    + destruct (Plex.sections_reply srv) as [err|dirs] eqn:Hrep; simpl.
      { split; [discriminate|].
        intros (_ & _ & pre & d & post & k & [=] & _). }
      destruct (Plex.first_titled name dirs) as [k|] eqn:Hk; simpl.
      * destruct (bool_decide (k = "")) eqn:Hempty.
        { apply bool_decide_eq_true in Hempty. simpl.
          split; [discriminate|].
          intros (_ & _ & pre & d & post & k' & [= ->] & Hpre & Ht & Hk' & Hne).
          rewrite (plex_first_titled_iff name _ (Some k')) in Hk by eauto 10.
          congruence. }
        apply bool_decide_eq_false in Hempty.
        destruct (Plex.refresh_error srv) eqn:Hr; simpl.
        { split; [discriminate | intros (_ & [=] & _)]. }
        split; [intros _ | reflexivity].
        destruct (plex_first_titled_Some name dirs k Hk)
          as (pre & d & post & -> & Hpre & Ht & Hkd).
        split; [exact Htok|]. split; [reflexivity|].
        exists pre, d, post, k. auto.
      * split; [discriminate|].
        intros (_ & _ & pre & d & post & k' & [= ->] & Hpre & Ht & Hk' & Hne).
        rewrite (plex_first_titled_iff name _ (Some k')) in Hk by eauto 10.
        discriminate.
    + intros pre d post k Hok Hrep Hpre Ht Hkd. rewrite Hrep in *. simpl in *.
      rewrite (plex_first_titled_iff name _ (Some k)) in * by eauto 10.
      simpl in *.
      destruct (bool_decide (k = "")); simpl in *; [discriminate|].
      destruct (Plex.refresh_error srv); simpl in *; [discriminate|reflexivity].
Qed.

Lemma trigger_plex_scan_succeeds_iff_witness :
  snd (Plex.trigger_plex_scan plex_cfg plex_one_movies "Movies")
  = ["http://localhost:32400/library/sections?X-Plex-Token=tok";
     "http://localhost:32400/library/sections/2/refresh?X-Plex-Token=tok"].
Proof.
  apply (proj1 (proj2 (trigger_plex_scan_succeeds_iff plex_cfg plex_one_movies
                         "Movies"))
           [{| Plex.title := Some "TV Shows"; Plex.key := Some "1" |}]
           {| Plex.title := Some "Movies"; Plex.key := Some "2" |} [] "2").
  - reflexivity.
  - reflexivity.
  - repeat constructor. discriminate.
  - reflexivity.
  - reflexivity.
Defined.

Example plex_first_match_without_key :
  Plex.trigger_plex_scan plex_cfg plex_two_movies "Movies"
  = (false, ["http://localhost:32400/library/sections?X-Plex-Token=tok"]).
Proof. reflexivity. Qed.

(** ** notifications.py *)

Lemma notify_send_email_attempts (cfg : Notify.config) (net : Notify.network)
    (to kind : string) :
  snd (Notify.send_email cfg net to kind)
  = if Notify.mail_active cfg then [Notify.Smtp to kind] else [].
Proof.
  unfold Notify.send_email, Notify.mail_active.
  destruct (Notify.EMAIL_ENABLED cfg); simpl; [|reflexivity].
  destruct (bool_decide (Notify.SMTP_USERNAME cfg = "")); simpl; [reflexivity|].
  destruct (bool_decide (Notify.SMTP_PASSWORD cfg = "")); reflexivity.
Qed.

Lemma notify_send_discord_attempts (cfg : Notify.config)
    (net : Notify.network) (kind : string) :
  (if Notify.DISCORD_ENABLED cfg
   then Notify.swallow (Notify.send_discord_notification cfg net kind) else [])
  = if Notify.DISCORD_ENABLED cfg then [Notify.Webhook kind] else [].
Proof.
  unfold Notify.send_discord_notification, Notify.DISCORD_ENABLED.
  destruct (bool_decide (Notify.DISCORD_WEBHOOK_URL cfg = "")); reflexivity.
Qed.

(** X20. send_upload_notification never raises, and what it attempts does
    not depend on what fails: when mail is switched on and has a user name
    and a password it tries the uploader, then every address of
    ADMIN_EMAILS in order, and when a webhook is configured it then tries
    Discord; a failed delivery never stops the later ones. *)
Theorem upload_notification_attempts_all (cfg : Notify.config)
    (net : Notify.network) (uploader : string) :
  Notify.send_upload_notification cfg net uploader
  = (None,
     (if Notify.mail_active cfg
      then Notify.Smtp uploader "Upload Request Received"
           :: List.map (λ a, Notify.Smtp a "New Upload Pending")
                (Notify.ADMIN_EMAILS cfg)
      else [])
     ++ (if Notify.DISCORD_ENABLED cfg
         then [Notify.Webhook "New Upload"] else [])).
Proof.
  unfold Notify.send_upload_notification, Notify.swallow at 1 2.
  rewrite notify_send_discord_attempts, notify_send_email_attempts.
  assert (flat_map (λ a, snd (Notify.send_email cfg net a "New Upload Pending"))
            (Notify.ADMIN_EMAILS cfg)
          = if Notify.mail_active cfg
            then List.map (λ a, Notify.Smtp a "New Upload Pending")
                   (Notify.ADMIN_EMAILS cfg)
            else []) as ->.
  { induction (Notify.ADMIN_EMAILS cfg) as [|a l IH]; simpl.
    - destruct (Notify.mail_active cfg); reflexivity.
    - rewrite IH, notify_send_email_attempts.
      destruct (Notify.mail_active cfg); reflexivity. }
  destruct (Notify.mail_active cfg); simpl; [reflexivity|].
  reflexivity.
Qed.

(** X21. send_approval_notification and send_denial_notification do not
    guard the e-mail: when mail is active and the SMTP delivery to the
    uploader fails, the exception is raised to the caller and the Discord
    message is not attempted, even with a webhook configured. When mail is
    not active the Discord message is still attempted. *)
Theorem review_mail_failure_skips_discord :
  (∀ (cfg : Notify.config) (net : Notify.network) (uploader exn : string),
     Notify.mail_active cfg = true →
     Notify.smtp_error net uploader = Some exn →
     Notify.send_approval_notification cfg net uploader
       = (Some exn, [Notify.Smtp uploader "Upload Approved"])
     ∧ Notify.send_denial_notification cfg net uploader
       = (Some exn, [Notify.Smtp uploader "Upload Not Approved"]))
  ∧ (∀ (cfg : Notify.config) (net : Notify.network) (uploader : string),
       Notify.mail_active cfg = false →
       Notify.send_approval_notification cfg net uploader
         = (None, if Notify.DISCORD_ENABLED cfg
                  then [Notify.Webhook "Upload Approved"] else [])
       ∧ Notify.send_denial_notification cfg net uploader
         = (None, if Notify.DISCORD_ENABLED cfg
                  then [Notify.Webhook "Upload Denied"] else [])).
Proof.
  split.
  - intros cfg net uploader exn Hact Hsmtp.
    unfold Notify.send_approval_notification, Notify.send_denial_notification,
      Notify.send_email.
    unfold Notify.mail_active in Hact.
    apply andb_prop in Hact as [Hact Hpw]. apply andb_prop in Hact as [Hen Hus].
    rewrite Hen. apply negb_true_iff in Hus, Hpw. rewrite Hus, Hpw. simpl.
    rewrite Hsmtp. split; reflexivity.
  - intros cfg net uploader Hact.
    unfold Notify.send_approval_notification, Notify.send_denial_notification.
    pose proof (notify_send_email_attempts cfg net uploader "Upload Approved")
      as Ha.
    pose proof (notify_send_email_attempts cfg net uploader
                  "Upload Not Approved") as Hd.
    rewrite Hact in Ha, Hd.
    assert (∀ k, fst (Notify.send_email cfg net uploader k) = None) as Hnone.
    { intros k. unfold Notify.send_email. unfold Notify.mail_active in Hact.
      destruct (Notify.EMAIL_ENABLED cfg); simpl in *; [|reflexivity].
      destruct (bool_decide (Notify.SMTP_USERNAME cfg = ""));
        simpl in *; [reflexivity|].
      destruct (bool_decide (Notify.SMTP_PASSWORD cfg = ""));
        simpl in *; [reflexivity | discriminate]. }
    pose proof (Hnone "Upload Approved") as Hna.
    pose proof (Hnone "Upload Not Approved") as Hnd.
    destruct (Notify.send_email cfg net uploader "Upload Approved")
      as [xa sa].
    destruct (Notify.send_email cfg net uploader "Upload Not Approved")
      as [xd sd].
    simpl in *. subst.
    rewrite !notify_send_discord_attempts. split; reflexivity.
Qed.

Lemma review_mail_failure_skips_discord_witness :
  Notify.send_approval_notification notify_cfg smtp_down "a@x.com"
  = (Some "Connection refused", [Notify.Smtp "a@x.com" "Upload Approved"]).
Proof.
  apply (proj1 review_mail_failure_skips_discord notify_cfg smtp_down
           "a@x.com" "Connection refused"); reflexivity.
Defined.

(** ** config.py: ADMIN_EMAILS *)

Lemma conf_rstrip_idem (s : string) : Conf.rstrip (Conf.rstrip s) = Conf.rstrip s.
Proof.
  induction s as [|c s IH]; simpl; [reflexivity|].
  destruct (Conf.rstrip s) as [|d r] eqn:E.
  - destruct (Conf.is_space c) eqn:Hc; simpl; [reflexivity|].
    rewrite Hc. reflexivity.
  - assert (∀ x, Conf.rstrip (String c x)
                 = match Conf.rstrip x with
                   | EmptyString =>
                       if Conf.is_space c then EmptyString
                       else String c EmptyString
                   | y => String c y
                   end) as Hstep by reflexivity.
    rewrite Hstep, IH. reflexivity.
Qed.

Lemma conf_lstrip_head (s : string) :
  match Conf.lstrip s with
  | EmptyString => True
  | String c _ => Conf.is_space c = false
  end.
Proof.
  induction s as [|c s IH]; simpl; [exact I|].
  destruct (Conf.is_space c) eqn:Hc; [exact IH | exact Hc].
Qed.

Lemma conf_rstrip_keeps_head (c : ascii) (s : string) :
  Conf.is_space c = false →
  ∃ r, Conf.rstrip (String c s) = String c r.
Proof.
  intros Hc. simpl. destruct (Conf.rstrip s); [rewrite Hc|]; eauto.
Qed.

Lemma conf_strip_idem (s : string) : Conf.strip (Conf.strip s) = Conf.strip s.
Proof.
  unfold Conf.strip. pose proof (conf_lstrip_head s) as Hh.
  destruct (Conf.lstrip s) as [|c t] eqn:E; [reflexivity|].
  destruct (conf_rstrip_keeps_head c t Hh) as [r Hr].
  assert (Conf.lstrip (Conf.rstrip (String c t)) = Conf.rstrip (String c t))
    as -> by (rewrite Hr; simpl; rewrite Hh; reflexivity).
  apply conf_rstrip_idem.
Qed.

Lemma has_comma_lstrip (s : string) :
  has_comma s = false → has_comma (Conf.lstrip s) = false.
Proof.
  induction s as [|c s IH]; simpl; [auto|].
  intros H. apply orb_false_iff in H as [Hc Hs].
  destruct (Conf.is_space c); [auto|]. simpl. rewrite Hc, Hs. reflexivity.
Qed.

Lemma has_comma_rstrip (s : string) :
  has_comma s = false → has_comma (Conf.rstrip s) = false.
Proof.
  induction s as [|c s IH]; simpl; [auto|].
  intros H. apply orb_false_iff in H as [Hc Hs].
  specialize (IH Hs).
  destruct (Conf.rstrip s) as [|d r].
  - destruct (Conf.is_space c); simpl; [reflexivity|]. rewrite Hc. reflexivity.
  - simpl in *. rewrite Hc. exact IH.
Qed.

Lemma split_comma_no_comma (s : string) :
  Forall (λ p, has_comma p = false) (Conf.split_comma s).
Proof.
  induction s as [|c s IH]; simpl; [repeat constructor|].
  destruct (Ascii.eqb c ",") eqn:Hc; [constructor; [reflexivity | exact IH]|].
  destruct (Conf.split_comma s) as [|p ps].
  - constructor; [simpl; rewrite Hc; reflexivity | constructor].
  - apply Forall_cons in IH as [Hp Hps].
    constructor; [simpl; rewrite Hc, Hp; reflexivity | exact Hps].
Qed.

(** X22. Every address in ADMIN_EMAILS is clean: it is not empty, contains
    no comma and has no white space at either end, whatever the value of
    the environment variable. *)
Theorem admin_emails_are_clean (getenv : option string) :
  Forall clean_address (Conf.ADMIN_EMAILS getenv).
Proof.
  unfold Conf.ADMIN_EMAILS. apply Forall_forall. intros e He.
  apply list_elem_of_In, filter_In in He as [He Hne].
  apply negb_true_iff, bool_decide_eq_false in Hne.
  apply in_map_iff in He as (p & <- & Hp).
  pose proof (split_comma_no_comma (default "admin@example.com" getenv)) as Hall.
  rewrite Forall_forall in Hall.
  specialize (Hall p (proj2 (list_elem_of_In _ _) Hp)).
  split; [exact Hne|]. split.
  - unfold Conf.strip. apply has_comma_rstrip, has_comma_lstrip, Hall.
  - apply conf_strip_idem.
Qed.






(** ** routes.py: an upload through its life *)




